(** * Validation and serialization of the Patient models

    A shallow embedding of the Patient scripts of this repository
    ([2_Pydantic.py], [3_field_validator.py], [3_model_validator.py],
    [4_computed_fields.py], [6_serialization.py]) together with the part of
    the pydantic v2 engine they run on: lax and strict coercion, field
    constraints, field-level "before"/"after" validators, model-level
    "after" validators, computed fields and [model_dump] with
    include/exclude filters.

    A Python float is modelled by the rational [Q] equal to its binary64
    value; float operations round their exact result to the nearest
    binary64 value ([to_double]).  The model has no infinities or NaN. *)

From Stdlib Require Import String Ascii List ZArith QArith Qabs Bool Lia.
Import ListNotations.
Open Scope string_scope.
Set Warnings "-register-all".

(** ** Python values, exceptions and the exception monad *)

Inductive pyval : Type :=
| PNone
| PBool (b : bool)
| PInt (z : Z)
| PFloat (q : Q)
| PStr (s : string)
| PList (l : list pyval)
| PDict (d : list (string * pyval))
| PModel (r : list (string * pyval)).

(** A record (model instance, dict) is an ordered association list, as
    Python dicts and model fields keep insertion order.  A [PModel] given
    for a nested model field stands for an instance of that field's class. *)
Definition record := list (string * pyval).

Inductive pyexc : Type :=
| ValueError | TypeError | AssertionError | ZeroDivisionError | AttributeError
| OverflowError.

Inductive pyres (A : Type) : Type :=
| Ok (a : A)
| Raise (e : pyexc).
Arguments Ok {A} a.
Arguments Raise {A} e.

Definition pybind {A B} (m : pyres A) (k : A -> pyres B) : pyres B :=
  match m with Ok a => k a | Raise e => Raise e end.

Notation "x <- m ;; k" := (pybind m (fun x => k))
  (at level 61, m at next level, right associativity).

Fixpoint lookup {A} (k : string) (d : list (string * A)) : option A :=
  match d with
  | [] => None
  | (k', v) :: d' => if String.eqb k k' then Some v else lookup k d'
  end.

(** ** String helpers

    A Python [str] is held as its UTF-8 bytes. *)

Definition ascii_upper (c : ascii) : ascii :=
  let n := nat_of_ascii c in
  if (97 <=? n)%nat && (n <=? 122)%nat then ascii_of_nat (n - 32) else c.

Definition ascii_lower (c : ascii) : ascii :=
  let n := nat_of_ascii c in
  if (65 <=? n)%nat && (n <=? 90)%nat then ascii_of_nat (n + 32) else c.

(** A string of ASCII characters only. *)
Definition is_ascii (s : string) : bool :=
  forallb (fun c => (nat_of_ascii c <? 128)%nat) (list_ascii_of_string s).

(** [str.upper()] on ASCII letters; Python also maps non-ASCII letters,
    which this function leaves as they are. *)
Fixpoint str_upper (s : string) : string :=
  match s with
  | EmptyString => EmptyString
  | String c s' => String (ascii_upper c) (str_upper s')
  end.

(** [str.lower()] on ASCII letters, as [str_upper]. *)
Fixpoint str_lower (s : string) : string :=
  match s with
  | EmptyString => EmptyString
  | String c s' => String (ascii_lower c) (str_lower s')
  end.

(** [len(s)]: the number of code points, i.e. of the bytes that do not
    continue a multi-byte UTF-8 sequence (continuation bytes are
    [0b10xxxxxx]). *)
Fixpoint py_len (s : string) : nat :=
  match s with
  | EmptyString => 0
  | String c s' =>
      let n := nat_of_ascii c in
      if (128 <=? n)%nat && (n <? 192)%nat then py_len s' else S (py_len s')
  end.

(** [s.split(sep)] for a one-character separator. *)
Fixpoint split_on (sep : ascii) (s : string) : list string :=
  match s with
  | EmptyString => [EmptyString]
  | String c s' =>
      let parts := split_on sep s' in
      if Ascii.eqb c sep then EmptyString :: parts
      else match parts with
           | p :: ps => String c p :: ps
           | [] => [String c EmptyString]
           end
  end.

(** *** Numbers in strings (pydantic-core's [str_as_int] and [str_as_float]) *)

Definition digit_val (c : ascii) : option Z :=
  let n := nat_of_ascii c in
  if (48 <=? n)%nat && (n <=? 57)%nat then Some (Z.of_nat (n - 48)) else None.

Definition is_digit (c : ascii) : bool :=
  match digit_val c with Some _ => true | None => false end.

(** ASCII whitespace, as stripped by Rust's [str::trim]. *)
Definition is_space (c : ascii) : bool :=
  match nat_of_ascii c with
  | 9 | 10 | 11 | 12 | 13 | 32 => true
  | _ => false
  end%nat.

Fixpoint drop_spaces (l : list ascii) : list ascii :=
  match l with
  | c :: l' => if is_space c then drop_spaces l' else l
  | [] => []
  end.

(** [s.trim()] *)
Definition trim (s : string) : list ascii :=
  rev (drop_spaces (rev (drop_spaces (list_ascii_of_string s)))).

Fixpoint digits_acc (l : list ascii) (acc : Z) : option Z :=
  match l with
  | [] => Some acc
  | c :: l' =>
      match digit_val c with
      | Some d => digits_acc l' (acc * 10 + d)%Z
      | None => None
      end
  end.

(** A non-empty run of decimal digits. *)
Definition parse_digits (l : list ascii) : option Z :=
  match l with [] => None | _ => digits_acc l 0 end.

Definition parse_sign (l : list ascii) : Z * list ascii :=
  match l with
  | "-"%char :: l' => ((-1)%Z, l')
  | "+"%char :: l' => (1%Z, l')
  | _ => (1%Z, l)
  end.

(** Rust's [str::parse] for an integer: an optional sign, then digits. *)
Definition parse_int_plain (l : list ascii) : option Z :=
  let '(sg, body) := parse_sign l in option_map (Z.mul sg) (parse_digits body).

(** The text before the last '.', when only zeros follow it ("24.0"). *)
Fixpoint split_last_dot (r : list ascii) (frac : list ascii)
    : option (list ascii * list ascii) :=
  match r with
  | [] => None
  | c :: r' =>
      if Ascii.eqb c "." then Some (rev r', frac) else split_last_dot r' (c :: frac)
  end.

Definition strip_decimal_zeros (l : list ascii) : option (list ascii) :=
  match split_last_dot (rev l) [] with
  | Some (pre, frac) =>
      if forallb (fun c => Ascii.eqb c "0") frac then Some pre else None
  | None => None
  end.

(** Underscores are allowed between two digits only ("1_000"); they are
    then removed. *)
Fixpoint underscores_ok (prev_digit : bool) (l : list ascii) : bool :=
  match l with
  | [] => true
  | c :: l' =>
      if Ascii.eqb c "_" then
        prev_digit && match l' with d :: _ => is_digit d | [] => false end
        && underscores_ok false l'
      else underscores_ok (is_digit c) l'
  end.

Definition strip_underscores (l : list ascii) : option (list ascii) :=
  if existsb (fun c => Ascii.eqb c "_") l && underscores_ok false l
  then Some (filter (fun c => negb (Ascii.eqb c "_")) l) else None.

(** Strings accepted by lax int validation: after trimming whitespace, an
    optional sign and digits; failing that, the same with a fraction of
    zeros dropped, or with its underscores removed.  Longer than 4300
    characters is refused. *)
Definition parse_int_str (s : string) : option Z :=
  let l := trim s in
  if (4300 <? List.length l)%nat then None else
  match parse_int_plain l with
  | Some z => Some z
  | None =>
      match option_map parse_int_plain (strip_decimal_zeros l) with
      | Some (Some z) => Some z
      | _ =>
          match strip_underscores l with
          | Some l' => parse_int_plain l'
          | None => None
          end
      end
  end.

Fixpoint split_at (p : ascii -> bool) (l : list ascii) : list ascii * option (list ascii) :=
  match l with
  | [] => ([], None)
  | c :: l' => if p c then ([], Some l') else let '(a, b) := split_at p l' in (c :: a, b)
  end.

(** Rust's [str::parse::<f64>] on finite decimal numbers, exactly:
    [[+-] digits [. digits] [(e|E) [+-] digits]] with at least one digit
    before the exponent.  The words "inf", "infinity" and "nan" are not
    taken, the model having no such floats. *)
Definition parse_decimal (l : list ascii) : option Q :=
  let '(sg, body) := parse_sign l in
  let '(mant, ex) := split_at (fun c => Ascii.eqb c "e" || Ascii.eqb c "E") body in
  let '(ip, fp) := split_at (fun c => Ascii.eqb c ".") mant in
  let fp := match fp with Some f => f | None => [] end in
  let e := match ex with
           | None => Some 0%Z
           | Some x => parse_int_plain x
           end in
  match e, digits_acc (app ip fp) 0 with
  | Some e, Some m =>
      if (0 <? List.length ip + List.length fp)%nat
      then Some (inject_Z (sg * m) * Qpower (inject_Z 10) (e - Z.of_nat (List.length fp)))%Q
      else None
  | _, _ => None
  end.

(** Strings accepted by lax float validation: the trimmed string parsed as
    above, or, failing that, the same with its underscores removed.  The
    decimal value is then rounded to a double (see [to_double]). *)
Definition parse_float_str (s : string) : option Q :=
  let l := trim s in
  match parse_decimal l with
  | Some q => Some q
  | None =>
      match strip_underscores l with
      | Some l' => parse_decimal l'
      | None => None
      end
  end.

(** Format check standing for [EmailStr] (the email-validator package):
    exactly one '@', a non-empty local part and a dotted domain whose
    labels are non-empty. *)
Definition is_email (s : string) : bool :=
  match split_on "@" s with
  | [local; dom] =>
      negb (String.eqb local "") &&
      (1 <? List.length (split_on "." dom))%nat &&
      forallb (fun p => negb (String.eqb p "")) (split_on "." dom)
  | _ => false
  end.

(** The address [EmailStr] stores: [email_validator]'s normalised form,
    whose domain is lower-cased (on ASCII letters; the IDNA mapping of
    other characters is not modelled). *)
Definition normalize_email (s : string) : string :=
  match split_on "@" s with
  | [local; dom] => append local (String "@" (str_lower dom))
  | _ => s
  end.

(** Format check standing for [AnyUrl]: a non-empty scheme, "://" and a
    non-empty rest. *)
Definition is_url (s : string) : bool :=
  match String.index 0 "://" s with
  | Some i => (0 <? i)%nat && (i + 3 <? String.length s)%nat
  | None => false
  end.

(** ** Declared field types and validation errors *)

Inductive ftype : Type :=
| TStr
| TEmail                          (** [EmailStr] *)
| TUrl                            (** [AnyUrl] *)
| TInt
| TFloat
| TBool
| TList (t : ftype)               (** [List[t]] *)
| TDict (t : ftype)               (** [Dict[str, t]] *)
| TOpt (t : ftype)                (** [Optional[t]] *)
| TModel (fs : list (string * ftype)).  (** a nested [BaseModel] *)

Inductive vkind : Type :=
| MISSING_FIELD | TYPE_MISMATCH | OUT_OF_RANGE | TOO_LONG | BAD_FORMAT
| HOOK_VIOLATION.

Inductive locpart : Type := LKey (k : string) | LIdx (i : nat).

(** One line of a [ValidationError]: location and kind. *)
Definition verr := (list locpart * vkind)%type.

Inductive vres (A : Type) : Type :=
| VOk (a : A)
| VErr (es : list verr).
Arguments VOk {A} a.
Arguments VErr {A} es.

Definition at_loc (l : locpart) (es : list verr) : list verr :=
  map (fun '(p, k) => (l :: p, k)) es.

Definition vprefix {A} (l : locpart) (r : vres A) : vres A :=
  match r with VOk a => VOk a | VErr es => VErr (at_loc l es) end.

(** Errors of independent parts are all collected. *)
Definition vcons {A B C} (f : A -> B -> C) (r1 : vres A) (r2 : vres B) : vres C :=
  match r1, r2 with
  | VOk a, VOk b => VOk (f a b)
  | VOk _, VErr es => VErr es
  | VErr es, VOk _ => VErr es
  | VErr es1, VErr es2 => VErr (app es1 es2)
  end.

(** Validate the items of a list (with their index) or the entries of an
    association list, collecting the errors of all of them. *)
Fixpoint vmap_idx {A B} (f : nat -> A -> vres B) (i : nat) (l : list A) : vres (list B) :=
  match l with
  | [] => VOk []
  | x :: l' => vcons cons (f i x) (vmap_idx f (S i) l')
  end.

Fixpoint vmap_assoc {A B} (f : string -> A -> vres B) (d : list (string * A))
    : vres (list (string * B)) :=
  match d with
  | [] => VOk []
  | (k, x) :: d' => vcons (fun w r => (k, w) :: r) (f k x) (vmap_assoc f d')
  end.

Definition mismatch {A} : vres A := VErr [([], TYPE_MISMATCH)].

(** ** Floats

    A Python float is held as the rational value of the double.  The
    infinities and NaN are outside this model: an input pydantic would read
    as one of them (the float [inf] or [nan], or a string such as ['inf'],
    ['nan'] or ['1e400'] for a lax float field) is refused here.

    Round half to even of a rational to an integer. *)
Definition round_half_even (x : Q) : Z :=
  let n := Qnum x in
  let d := Zpos (Qden x) in
  let fl := (n / d)%Z in
  let r := (n mod d)%Z in
  if (2 * r <? d)%Z then fl
  else if (d <? 2 * r)%Z then (fl + 1)%Z
  else if Z.even fl then fl else (fl + 1)%Z.

(** [2 ^ e] for an integer [e] of any sign. *)
Definition Qpow2 (e : Z) : Q :=
  if (0 <=? e)%Z then inject_Z (2 ^ e) else Qmake 1 (Z.to_pos (2 ^ (- e))).

(** IEEE 754 binary64 rounding to nearest, ties to even, subnormals
    included: a 53-bit significand [m] scaled by [2 ^ e] with
    [e >= -1074].  The exponent is not bounded above. *)
Definition round_binary64 (x : Q) : Q :=
  let n := Qnum x in
  if (n =? 0)%Z then 0%Q else
  let a := Qmake (Z.abs n) (Qden x) in
  let k0 := (Z.log2 (Z.abs n) - Z.log2 (Zpos (Qden x)))%Z in
  (* [k] is the exponent of the leading bit: [2 ^ k <= a < 2 ^ (k + 1)] *)
  let k := if Qle_bool (Qpow2 k0) a then k0 else (k0 - 1)%Z in
  let e := Z.max (k - 52) (-1074) in
  let m := round_half_even (a / Qpow2 e) in
  (inject_Z (Z.sgn n * m) * Qpow2 e)%Q.

(** The double nearest to [x]; a value that is already a double is kept as
    it is written. *)
Definition to_double (x : Q) : Q :=
  let y := round_binary64 x in if Qeq_bool y x then x else y.

(** The rounded value is a finite double: below [2 ^ 1024] in magnitude
    (Python's [float(n)] raises [OverflowError] beyond). *)
Definition in_double_range (x : Q) : bool :=
  negb (Qle_bool (Qpow2 1024) (Qabs (round_binary64 x))).

(** ** Coercion of one value to a declared type (pydantic-core, Python input)

    Lax mode: int from bool, integral float or numeric string; float from
    int, bool or numeric string; bool from 0/1 and the words pydantic
    accepts.  Strict mode: int only from int, float from float or int
    (pydantic's strict float accepts int), bool only from bool.  A dict
    given for a nested model field is validated field by field; an instance
    of the model is kept as it is, unchecked ([revalidate_instances='never']). *)

Definition coerce_int (strict : bool) (v : pyval) : vres pyval :=
  match v with
  | PInt z => VOk (PInt z)
  | PBool b => if strict then mismatch else VOk (PInt (if b then 1 else 0)%Z)
  | PFloat q =>
      if strict then mismatch
      else if (Z.modulo (Qnum q) (Zpos (Qden q)) =? 0)%Z
           then VOk (PInt (Z.div (Qnum q) (Zpos (Qden q)))) else mismatch
  | PStr s =>
      if strict then mismatch
      else match parse_int_str s with Some z => VOk (PInt z) | None => mismatch end
  | _ => mismatch
  end.

Definition coerce_float (strict : bool) (v : pyval) : vres pyval :=
  match v with
  | PFloat q => VOk (PFloat q)
  | PInt z =>
      (* [float(z)]: rounded to the nearest double; an overflow is refused *)
      if in_double_range (inject_Z z) then VOk (PFloat (to_double (inject_Z z)))
      else mismatch
  | PBool b => if strict then mismatch else VOk (PFloat (if b then 1 else 0)%Q)
  | PStr s =>
      if strict then mismatch
      else match parse_float_str s with
           | Some q =>
               (* past the double range pydantic reads inf, which is not
                  modelled: the string is refused *)
               if in_double_range q then VOk (PFloat (to_double q)) else mismatch
           | None => mismatch
           end
  | _ => mismatch
  end.

Definition true_words : list string := ["1"; "on"; "t"; "true"; "y"; "yes"].
Definition false_words : list string := ["0"; "off"; "f"; "false"; "n"; "no"].

Definition coerce_bool (strict : bool) (v : pyval) : vres pyval :=
  match v with
  | PBool b => VOk (PBool b)
  | _ =>
    if strict then mismatch else
    match v with
    | PInt z => if (z =? 1)%Z then VOk (PBool true)
                else if (z =? 0)%Z then VOk (PBool false) else mismatch
    | PFloat q => if Qeq_bool q 1 then VOk (PBool true)
                  else if Qeq_bool q 0 then VOk (PBool false) else mismatch
    | PStr s =>
        if existsb (String.eqb (str_lower s)) true_words then VOk (PBool true)
        else if existsb (String.eqb (str_lower s)) false_words then VOk (PBool false)
        else mismatch
    | _ => mismatch
    end
  end.

Fixpoint coerce (strict : bool) (t : ftype) (v : pyval) {struct t} : vres pyval :=
  match t with
  | TStr => match v with PStr s => VOk (PStr s) | _ => mismatch end
  | TEmail =>
      match v with
      | PStr s => if is_email s then VOk (PStr (normalize_email s)) else VErr [([], BAD_FORMAT)]
      | _ => mismatch
      end
  | TUrl =>
      match v with
      | PStr s => if is_url s then VOk (PStr s) else VErr [([], BAD_FORMAT)]
      | _ => mismatch
      end
  | TInt => coerce_int strict v
  | TFloat => coerce_float strict v
  | TBool => coerce_bool strict v
  | TList t' =>
      match v with
      | PList l =>
          match vmap_idx (fun i x => vprefix (LIdx i) (coerce strict t' x)) 0 l with
          | VOk ws => VOk (PList ws)
          | VErr es => VErr es
          end
      | _ => mismatch
      end
  | TDict t' =>
      match v with
      | PDict d =>
          match vmap_assoc (fun k x => vprefix (LKey k) (coerce strict t' x)) d with
          | VOk d' => VOk (PDict d')
          | VErr es => VErr es
          end
      | _ => mismatch
      end
  | TOpt t' => match v with PNone => VOk PNone | _ => coerce strict t' v end
  | TModel fs =>
      match v with
      | PModel d => VOk (PModel d)
      | PDict d =>
          match vmap_assoc (fun n ft =>
                  match lookup n d with
                  | None => VErr [([LKey n], MISSING_FIELD)]
                  | Some x => vprefix (LKey n) (coerce strict ft x)
                  end) fs with
          | VOk r => VOk (PModel r)
          | VErr es => VErr es
          end
      | _ => mismatch
      end
  end.

(** ** Fields, validators and schemas *)

(** A field or model validator is a Python callable: it returns a value or
    raises. *)
Definition hook := pyval -> pyres pyval.
Definition mhook := record -> pyres record.

Record field : Type := mkField {
  fname : string;
  ftyp : ftype;
  fstrict : bool;
  fgt : option Q;
  flt : option Q;
  fmax_length : option nat;
  fdefault : option pyval;
  fbefore : list hook;          (** [@field_validator(..., mode='before')] *)
  fafter : list hook            (** [@field_validator(...)], mode 'after' *)
}.

Record schema : Type := mkSchema {
  sfields : list field;
  smodel_after : list mhook;    (** [@model_validator(mode='after')] *)
  scomputed : list (string * (record -> pyres pyval))  (** [@computed_field] *)
}.

(** A plain annotated field [name: t] with no constraint, default or hook. *)
Definition plain (n : string) (t : ftype) : field :=
  mkField n t false None None None None [] [].

(** pydantic turns [ValueError] and [AssertionError] raised by a validator
    into a line of the [ValidationError]; any other exception propagates
    to the caller unchanged. *)
Definition collected (e : pyexc) : bool :=
  match e with ValueError | AssertionError => true | _ => false end.

Fixpoint run_hooks (hs : list hook) (v : pyval) : pyres pyval :=
  match hs with
  | [] => Ok v
  | h :: hs' => w <- h v ;; run_hooks hs' w
  end.

Fixpoint run_mhooks (hs : list mhook) (r : record) : pyres record :=
  match hs with
  | [] => Ok r
  | h :: hs' => r' <- h r ;; run_mhooks hs' r'
  end.

Definition num_of (v : pyval) : option Q :=
  match v with PInt z => Some (inject_Z z) | PFloat q => Some q | _ => None end.

(** [Field(gt=.., lt=.., max_length=..)], checked on the coerced value. *)
Definition check_gt (f : field) (v : pyval) : option vkind :=
  match num_of v, fgt f with
  | Some x, Some g => if Qle_bool x g then Some OUT_OF_RANGE else None
  | _, _ => None
  end.

Definition check_lt (f : field) (v : pyval) : option vkind :=
  match num_of v, flt f with
  | Some x, Some l => if Qle_bool l x then Some OUT_OF_RANGE else None
  | _, _ => None
  end.

Definition check_max_length (f : field) (v : pyval) : option vkind :=
  match v, fmax_length f with
  | PStr s, Some m => if (m <? py_len s)%nat then Some TOO_LONG else None
  | _, _ => None
  end.

(** [Field(gt=.., lt=.., max_length=..)], checked on the coerced value;
    the first failing constraint is reported. *)
Definition check_constraints (f : field) (v : pyval) : option vkind :=
  match check_gt f v with
  | Some k => Some k
  | None => match check_lt f v with
            | Some k => Some k
            | None => check_max_length f v
            end
  end.

(** ** The validation engine ([Model.model_validate(raw)]) *)

(** Outcome of one field: its value, its error lines, or an exception that
    escapes pydantic. *)
Inductive fres : Type :=
| FOk (v : pyval)
| FErr (es : list verr)
| FExc (e : pyexc).

Definition hook_failure (n : string) (e : pyexc) : fres :=
  if collected e then FErr [([LKey n], HOOK_VIOLATION)] else FExc e.

(** A missing field takes its default, which is not validated (pydantic's
    [validate_default=False]); a supplied value goes through the before
    validators, coercion, constraints and the after validators; the value
    returned by the last validator is the one stored. *)
Definition validate_field (f : field) (ov : option pyval) : fres :=
  let n := fname f in
  match ov with
  | None =>
      match fdefault f with
      | Some d => FOk d
      | None => FErr [([LKey n], MISSING_FIELD)]
      end
  | Some v =>
      match run_hooks (fbefore f) v with
      | Raise e => hook_failure n e
      | Ok v1 =>
          match coerce (fstrict f) (ftyp f) v1 with
          | VErr es => FErr (at_loc (LKey n) es)
          | VOk w =>
              match check_constraints f w with
              | Some k => FErr [([LKey n], k)]
              | None =>
                  match run_hooks (fafter f) w with
                  | Raise e => hook_failure n e
                  | Ok w' => FOk w'
                  end
              end
          end
      end
  end.

Inductive fsres : Type :=
| FsOk (r : record)
| FsErr (es : list verr)
| FsExc (e : pyexc).

(** Fields in declaration order; error lines of all fields are collected,
    but the first escaping exception ends the pass.  Keys of [raw] that
    name no field are ignored ([extra='ignore']). *)
Fixpoint validate_fields (fs : list field) (raw : record) : fsres :=
  match fs with
  | [] => FsOk []
  | f :: fs' =>
      match validate_field f (lookup (fname f) raw) with
      | FExc e => FsExc e
      | FOk v =>
          match validate_fields fs' raw with
          | FsOk r => FsOk ((fname f, v) :: r)
          | FsErr es => FsErr es
          | FsExc e => FsExc e
          end
      | FErr es =>
          match validate_fields fs' raw with
          | FsOk _ => FsErr es
          | FsErr es' => FsErr (app es es')
          | FsExc e => FsExc e
          end
      end
  end.

(** What the caller of [Model.model_validate(raw)] observes: an instance, a
    [ValidationError] with its lines, or another exception. *)
Inductive outcome : Type :=
| Valid (r : record)
| Invalid (es : list verr)
| Uncaught (e : pyexc).

Definition validate (S : schema) (raw : record) : outcome :=
  match validate_fields (sfields S) raw with
  | FsExc e => Uncaught e
  | FsErr es => Invalid es
  | FsOk r =>
      match run_mhooks (smodel_after S) r with
      | Ok r' => Valid r'
      | Raise e => if collected e then Invalid [([], HOOK_VIOLATION)] else Uncaught e
      end
  end.

(** ** Serialization ([model_dump(include=.., exclude=..)])

    A filter is pydantic's normalised include/exclude argument: [FAll] for
    [True] (the whole entry) and [FSub] for a dict from keys to sub-filters;
    a list or set of names [ns] is [FSub] mapping each name to [FAll]. *)

Inductive filt : Type :=
| FAll
| FSub (l : list (string * filt)).

Definition names (ns : list string) : filt := FSub (map (fun n => (n, FAll)) ns).

(** [k in ns] for a list of names *)
Definition mem (k : string) (ns : list string) : bool := existsb (String.eqb k) ns.

Definition included (inc : option filt) (n : string) : bool :=
  match inc with
  | Some (FSub l) => match lookup n l with Some _ => true | None => false end
  | _ => true
  end.

Definition excluded (exc : option filt) (n : string) : bool :=
  match exc with
  | Some (FSub l) => match lookup n l with Some FAll => true | _ => false end
  | Some FAll => true
  | None => false
  end.

Definition keep (inc exc : option filt) (n : string) : bool :=
  included inc n && negb (excluded exc n).

(** The filter scoped to the entry [n]. *)
Definition sub (o : option filt) (n : string) : option filt :=
  match o with
  | Some (FSub l) =>
      match lookup n l with Some (FSub l') => Some (FSub l') | _ => None end
  | _ => None
  end.

(** Nested models and dicts are dumped to dicts with the scoped filters;
    list items are dumped whole. *)
Fixpoint dump_assoc {A} (g : option filt -> option filt -> A -> pyval)
    (inc exc : option filt) (d : list (string * A)) : list (string * pyval) :=
  match d with
  | [] => []
  | (k, x) :: d' =>
      if keep inc exc k
      then (k, g (sub inc k) (sub exc k) x) :: dump_assoc g inc exc d'
      else dump_assoc g inc exc d'
  end.

Fixpoint dump_val (inc exc : option filt) (v : pyval) {struct v} : pyval :=
  match v with
  | PList l => PList (map (dump_val None None) l)
  | PDict d => PDict (dump_assoc dump_val inc exc d)
  | PModel r => PDict (dump_assoc dump_val inc exc r)
  | _ => v
  end.

Definition dump_fields (inc exc : option filt) (r : record) : record :=
  dump_assoc dump_val inc exc r.


Fixpoint dump_computed (cs : list (string * (record -> pyres pyval)))
    (r : record) (inc exc : option filt) : pyres record :=
  match cs with
  | [] => Ok []
  | (n, c) :: cs' =>
      if keep inc exc n then
        v <- c r ;;
        rest <- dump_computed cs' r inc exc ;;
        Ok ((n, dump_val (sub inc n) (sub exc n) v) :: rest)
      else dump_computed cs' r inc exc
  end.

(** Stored fields, then computed fields, whose properties are evaluated
    here; an exception raised by a property propagates to the caller. *)
Definition model_dump (S : schema) (r : record) (inc exc : option filt) : pyres record :=
  comp <- dump_computed (scomputed S) r inc exc ;;
  Ok (app (dump_fields inc exc r) comp).

(** ** Python operators used by the validators of the scripts *)

(** Numeric view of a value for comparisons and arithmetic; a bool is the
    int 0 or 1, anything else makes the operator raise [TypeError]. *)
Definition py_num (v : pyval) : pyres Q :=
  match v with
  | PInt z => Ok (inject_Z z)
  | PFloat q => Ok q
  | PBool b => Ok (if b then 1 else 0)%Q
  | _ => Raise TypeError
  end.

(** [a < b] *)
Definition py_lt (a b : pyval) : pyres bool :=
  x <- py_num a ;; y <- py_num b ;; Ok (negb (Qle_bool y x)).

(** [float(v)] for an operand of a float operation: a float is itself; an
    int or bool is rounded to the nearest double, or raises
    [OverflowError] past the double range. *)
Definition py_float (v : pyval) (x : Q) : pyres Q :=
  match v with
  | PFloat _ => Ok x
  | _ => if in_double_range x then Ok (to_double x) else Raise OverflowError
  end.

(** [a / b] (true division).  With a float operand, both are floats and
    the quotient is rounded to a double; a quotient past the largest double,
    which Python makes [inf], keeps its rounded value.  Of two ints the
    exact quotient is rounded once. *)
Definition py_truediv (a b : pyval) : pyres pyval :=
  x <- py_num a ;; y <- py_num b ;;
  match a, b with
  | PFloat _, _ | _, PFloat _ =>
      x' <- py_float a x ;; y' <- py_float b y ;;
      if Qeq_bool y' 0 then Raise ZeroDivisionError else Ok (PFloat (to_double (x' / y')))
  | _, _ =>
      if Qeq_bool y 0 then Raise ZeroDivisionError
      else if in_double_range (x / y) then Ok (PFloat (to_double (x / y)))
      else Raise OverflowError
  end.

(** [round(x, 2)]: for a float, its exact value rounded half to even to
    two decimals (CPython's correctly rounded [dtoa]), then read back as
    the nearest double; an int is returned as it is. *)
Definition py_round2 (v : pyval) : pyres pyval :=
  match v with
  | PFloat x => Ok (PFloat (to_double (Qmake (round_half_even (x * 100)) 100)))
  | PInt z => Ok (PInt z)
  | PBool b => Ok (PInt (if b then 1 else 0)%Z)
  | _ => Raise TypeError
  end.

(** [key in d] *)
Definition py_contains (d : pyval) (key : string) : pyres bool :=
  match d with
  | PDict d' => Ok (match lookup key d' with Some _ => true | None => false end)
  | PList l => Ok (existsb (fun x => match x with PStr s => String.eqb s key | _ => false end) l)
  | PStr _ | PNone | PBool _ | PInt _ | PFloat _ | PModel _ => Raise TypeError
  end.

(** [self.attr] on a model instance *)
Definition getattr (r : record) (a : string) : pyres pyval :=
  match lookup a r with Some v => Ok v | None => Raise AttributeError end.

(** ** [2_Pydantic.py]: class Patient *)

Module Pydantic2.

(** [weight: Annotated[float, Field(gt=0, strict=True)]] *)
Definition weight_field : field :=
  mkField "weight" TFloat true (Some 0%Q) None None None [] [].

(** [married: Annotated[bool, Field(default=None, ...)]] *)
Definition married_field : field :=
  mkField "married" TBool false None None None (Some PNone) [] [].

Definition Patient : schema := mkSchema
  [ mkField "name" TStr false None None (Some 50%nat) None [] [];
    plain "email" TEmail;
    plain "linkedin_url" TUrl;
    mkField "age" TInt false (Some 0%Q) (Some 120%Q) None None [] [];
    weight_field;
    married_field;
    mkField "allergies" (TOpt (TList TStr)) false None None None (Some PNone) [] [];
    plain "contact_details" (TDict TStr) ]
  [] [].

(** [patient_info] of the script *)
Definition patient_info : record :=
  [ ("name", PStr "Arshnoor"); ("email", PStr "arsh@gmail.com"); ("age", PInt 24);
    ("weight", PInt 70); ("married", PInt 1);
    ("allergies", PList [PStr "pollen"; PStr "dust"]);
    ("contact_details", PDict [("email", PStr "arshnoorsingh@gmail.com");
                               ("phone", PStr "98765432123")]) ].

End Pydantic2.

(** ** [3_field_validator.py]: class Patient *)

Module FieldValidator.

Definition email_validator (value : pyval) : pyres pyval :=
  match value with
  | PStr s =>
      let valid_domains := ["hdfc.com"; "icici.com"] in
      let domain_name := last (split_on "@" s) "" in
      if negb (existsb (String.eqb domain_name) valid_domains)
      then Raise ValueError
      else Ok PNone          (* the function ends without [return] *)
  | _ => Raise AttributeError
  end.

Definition transform_name (value : pyval) : pyres pyval :=
  match value with
  | PStr s => Ok (PStr (str_upper s))
  | _ => Raise AttributeError
  end.

(** [if 0 < value < 100: return value / else: raise ValueError(..)] *)
Definition validate_age (value : pyval) : pyres pyval :=
  c1 <- py_lt (PInt 0) value ;;
  if c1 then
    c2 <- py_lt value (PInt 100) ;;
    if c2 then Ok value else Raise ValueError
  else Raise ValueError.

Definition name_field : field :=
  mkField "name" TStr false None None None None [] [transform_name].

Definition email_field : field :=
  mkField "email" TEmail false None None None None [] [email_validator].

Definition age_field : field :=
  mkField "age" TInt false None None None None [validate_age] [].

Definition Patient : schema := mkSchema
  [ name_field; email_field; age_field;
    plain "weight" TFloat;
    plain "married" TBool;
    plain "allergies" (TList TStr);
    plain "contact_details" (TDict TStr) ]
  [] [].

End FieldValidator.

(** ** [3_model_validator.py]: class Patient *)

Module ModelValidator.

(** [if model.age > 60 and 'emergency' not in model.contact_details: raise
    ValueError(..)]; [return model] *)
Definition validate_emergency_contact (model : record) : pyres record :=
  age <- getattr model "age" ;;
  older <- py_lt (PInt 60) age ;;
  if older then
    cd <- getattr model "contact_details" ;;
    has <- py_contains cd "emergency" ;;
    if negb has then Raise ValueError else Ok model
  else Ok model.

Definition Patient : schema := mkSchema
  [ plain "name" TStr; plain "email" TEmail; plain "age" TInt;
    plain "weight" TFloat; plain "married" TBool;
    plain "allergies" (TList TStr); plain "contact_details" (TDict TStr) ]
  [validate_emergency_contact] [].

End ModelValidator.

(** ** [4_computed_fields.py]: class Patient *)

Module ComputedFields.

(** [bmi = round(self.weight/self.height, 2)]; [return bmi] *)
Definition bmi (self : record) : pyres pyval :=
  w <- getattr self "weight" ;;
  h <- getattr self "height" ;;
  q <- py_truediv w h ;;
  py_round2 q.

Definition Patient : schema := mkSchema
  [ plain "name" TStr; plain "email" TEmail; plain "age" TInt;
    plain "weight" TFloat; plain "height" TFloat; plain "married" TBool;
    plain "allergies" (TList TStr); plain "contact_details" (TDict TStr) ]
  [] [("bmi", bmi)].

End ComputedFields.

(** ** [6_serialization.py]: classes Address and Patient *)

Module Serialization.

Definition Address_fields : list (string * ftype) :=
  [("city", TStr); ("state", TStr); ("pin", TStr)].

Definition Patient : schema := mkSchema
  [ plain "name" TStr; plain "gender" TStr; plain "age" TInt;
    plain "address" (TModel Address_fields) ]
  [] [].

Definition address_dict : record :=
  [("city", PStr "gurgaon"); ("state", PStr "Punjab"); ("pin", PStr "1234")].

Definition patient_dict : record :=
  [ ("name", PStr "Arshnoor"); ("gender", PStr "male"); ("age", PInt 26);
    ("address", PModel address_dict) ].

End Serialization.

(** ** [1_Pydantic_why.py]: checks written by hand

    What a function prints is returned as the list of the values given to
    [print], one per call; the functions that raise do so before printing. *)

Module PydanticWhy.

(** [type(x) == str] and [type(x) == int] compare exact types: the type of
    [True] is [bool], not [int]. *)
Definition type_is_str (v : pyval) : bool := match v with PStr _ => true | _ => false end.
Definition type_is_int (v : pyval) : bool := match v with PInt _ => true | _ => false end.

Definition insert_patient_data (name age : pyval) : pyres (list pyval) :=
  Ok [name; age; PStr "inserted into database"].

(** Type hints only: nothing is checked. *)
Definition insert_patient_data1 (name age : pyval) : pyres (list pyval) :=
  Ok [name; age; PStr "inserted into database"].

Definition insert_patient_data2 (name age : pyval) : pyres (list pyval) :=
  if type_is_str name && type_is_int age then
    Ok [name; age; PStr "inserted into database"]
  else Raise TypeError.

(** The second [def update_patient_data1] of the file, which rebinds the
    name: the first one is never called. *)
Definition update_patient_data1 (name age : pyval) : pyres (list pyval) :=
  if type_is_str name && type_is_int age then
    neg <- py_lt age (PInt 0) ;;
    if neg then Raise ValueError
    else Ok [name; age; PStr "inserted into database"]
  else Raise TypeError.

End PydanticWhy.

(** ** Well-formed field types

    The types whose validated values re-validate from their dump: nested
    models are left out, as an instance given there is stored unchecked. *)

Fixpoint all_snd {A} (p : A -> Prop) (l : list (string * A)) : Prop :=
  match l with
  | [] => True
  | (_, x) :: l' => p x /\ all_snd p l'
  end.

Fixpoint wf_ftype (t : ftype) : Prop :=
  match t with
  | TList t' | TDict t' | TOpt t' => wf_ftype t'
  | TModel _ => False
  | _ => True
  end.

(** A field that the serializer's output re-validates to the same value:
    no validator, no default, a well-formed type. *)
Definition field_rt_ok (f : field) : Prop :=
  fbefore f = [] /\ fafter f = [] /\ fdefault f = None /\ wf_ftype (ftyp f).

(** Induction on field types through the fields of nested models. *)
Definition ftype_ind' (P : ftype -> Prop)
  (HStr : P TStr) (HEmail : P TEmail) (HUrl : P TUrl) (HInt : P TInt)
  (HFloat : P TFloat) (HBool : P TBool)
  (HList : forall t, P t -> P (TList t))
  (HDict : forall t, P t -> P (TDict t))
  (HOpt : forall t, P t -> P (TOpt t))
  (HModel : forall fs, all_snd P fs -> P (TModel fs)) : forall t, P t :=
  fix F (t : ftype) : P t :=
    match t with
    | TStr => HStr | TEmail => HEmail | TUrl => HUrl | TInt => HInt
    | TFloat => HFloat | TBool => HBool
    | TList t' => HList t' (F t')
    | TDict t' => HDict t' (F t')
    | TOpt t' => HOpt t' (F t')
    | TModel fs =>
        HModel fs ((fix G (l : list (string * ftype)) : all_snd P l :=
                      match l with
                      | [] => I
                      | (_, t') :: l' => conj (F t') (G l')
                      end) fs)
    end.

(** ** Concrete inputs *)

Module Samples.

(** [patient_info] of [2_Pydantic.py] completed with the required
    [linkedin_url]. *)
Definition patient_info_url : record :=
  ("linkedin_url", PStr "https://www.linkedin.com/in/arshnoor") :: Pydantic2.patient_info.

Definition patient_base : record :=
  [ ("name", PStr "Arshnoor"); ("email", PStr "arsh@hdfc.com"); ("age", PInt 24);
    ("weight", PInt 70); ("married", PBool true);
    ("allergies", PList [PStr "pollen"; PStr "dust"]);
    ("contact_details", PDict [("phone", PStr "123")]) ].

Definition patient_text_age : record := ("age", PStr "twenty") :: patient_base.

Definition senior_no_emergency : record :=
  ("age", PInt 65) :: ("contact_details", PDict [("phone", PStr "123")]) :: patient_base.

Definition senior_emergency : record :=
  ("age", PInt 65)
    :: ("contact_details", PDict [("phone", PStr "123"); ("emergency", PStr "911")])
    :: patient_base.

Definition patient_height (h : Q) : record := ("height", PFloat h) :: patient_base.

End Samples.

(** * Properties of the engine *)

Ltac inv H := inversion H; subst; clear H.

(** Distinct field names of a concrete schema. *)
Ltac distinct_names :=
  cbn; repeat constructor; cbn;
  let H := fresh in
  intros H; repeat (destruct H as [H|H]; [discriminate|]); exact H.

Section Engine.

Lemma validate_fields_ok_iff (fs : list field) (raw r : record) :
  validate_fields fs raw = FsOk r <->
  Forall2 (fun f e => fst e = fname f /\ validate_field f (lookup (fname f) raw) = FOk (snd e))
          fs r.
Proof.
  revert r; induction fs as [|f fs IH]; intros r; simpl.
  - split; intro H.
    + inv H; constructor.
    + inv H; reflexivity.
  - split; intro H.
    + destruct (validate_field f (lookup (fname f) raw)) eqn:Ef;
        destruct (validate_fields fs raw) eqn:Er; try discriminate.
      inv H. constructor; [simpl; auto|]. apply IH; reflexivity.
    + inv H. destruct y as [n v]. destruct H2 as [Hn Hv]; simpl in *; subst.
      rewrite Hv. apply IH in H4. rewrite H4. reflexivity.
Qed.

Definition no_escape (f : field) : Prop := forall ov e, validate_field f ov <> FExc e.

Lemma hook_free_no_escape (f : field) :
  fbefore f = [] -> fafter f = [] -> no_escape f.
Proof.
  intros Hb Ha ov e. unfold validate_field. rewrite Hb, Ha. simpl.
  destruct ov; [|destruct (fdefault f); discriminate].
  destruct (coerce _ _ _); [|discriminate].
  destruct (check_constraints _ _); discriminate.
Qed.

Lemma validate_fields_no_escape (fs : list field) (raw : record) :
  Forall no_escape fs -> forall e, validate_fields fs raw <> FsExc e.
Proof.
  induction 1 as [|f fs Hf Hfs IH]; intros e; simpl; [discriminate|].
  destruct (validate_field f (lookup (fname f) raw)) eqn:Ef.
  - destruct (validate_fields fs raw) eqn:Er; try discriminate. exfalso; exact (IH _ eq_refl).
  - destruct (validate_fields fs raw) eqn:Er; try discriminate. exfalso; exact (IH _ eq_refl).
  - apply Hf in Ef as [].
Qed.

Lemma validate_fields_err (fs : list field) (raw : record) (f : field) (es : list verr) :
  Forall no_escape fs -> In f fs ->
  validate_field f (lookup (fname f) raw) = FErr es ->
  exists es', validate_fields fs raw = FsErr es' /\ incl es es'.
Proof.
  induction 1 as [|g fs Hg Hfs IH]; intros Hin Hf; [destruct Hin|].
  simpl. destruct Hin as [<-|Hin].
  - rewrite Hf. destruct (validate_fields fs raw) eqn:Er.
    + eexists; split; [reflexivity|apply incl_refl].
    + eexists; split; [reflexivity|apply incl_appl, incl_refl].
    + exfalso; eapply validate_fields_no_escape; eauto.
  - destruct (IH Hin Hf) as [es' [He Hi]]. rewrite He.
    destruct (validate_field g (lookup (fname g) raw)) eqn:Eg.
    + eexists; split; [reflexivity|exact Hi].
    + eexists; split; [reflexivity|apply incl_appr, Hi].
    + apply Hg in Eg as [].
Qed.

Lemma lookup_Forall2 {P : field -> pyval -> Prop} (fs : list field) (r : record) (f : field) :
  Forall2 (fun f e => fst e = fname f /\ P f (snd e)) fs r ->
  NoDup (map fname fs) -> In f fs ->
  exists w, lookup (fname f) r = Some w /\ P f w.
Proof.
  induction 1 as [|g [n w] fs r [Hn Hw] Hr IH]; intros Hnd Hin; [destruct Hin|].
  simpl in *; subst n. inv Hnd. destruct Hin as [<-|Hin].
  - rewrite String.eqb_refl. eauto.
  - destruct (String.eqb (fname f) (fname g)) eqn:E.
    + apply String.eqb_eq in E. exfalso. apply H1. rewrite <- E. apply in_map, Hin.
    + apply IH; auto.
Qed.

Lemma validated_field_value (fs : list field) (raw r : record) (f : field) :
  validate_fields fs raw = FsOk r -> NoDup (map fname fs) -> In f fs ->
  exists w, lookup (fname f) r = Some w /\ validate_field f (lookup (fname f) raw) = FOk w.
Proof.
  intros E. apply validate_fields_ok_iff in E.
  exact (lookup_Forall2 (P := fun f w => validate_field f (lookup (fname f) raw) = FOk w)
           fs r f E).
Qed.

End Engine.

(** Fields with no validator never let an exception escape. *)
Ltac all_hook_free :=
  cbn; repeat constructor; apply hook_free_no_escape; reflexivity.

(** * The claims *)

(** ** The computed field [bmi] *)

(** C1 (code_bug): on a record storing weight 70 and height 1.75, [bmi]
    evaluates [round(70/1.75, 2)] = 40.0; the value 22.86 the claim gives is
    [round(70/1.75**2, 2)], the body-mass index, which the code would need
    the square of the height for. *)
Theorem bmi_weight70_height175 (r : record) :
  lookup "weight" r = Some (PFloat 70) ->
  lookup "height" r = Some (PFloat (7 # 4)) ->
  ComputedFields.bmi r = Ok (PFloat (4000 # 100)) /\
  ~ (4000 # 100 == to_double (2286 # 100))%Q /\
  (q <- py_truediv (PFloat 70) (PFloat ((7 # 4) * (7 # 4))%Q) ;; py_round2 q)
    = Ok (PFloat (to_double (2286 # 100))).
Proof.
  intros Hw Hh. unfold ComputedFields.bmi, getattr. rewrite Hw, Hh.
  split; [vm_compute; reflexivity|split; [|vm_compute; reflexivity]].
  vm_compute. discriminate.
Qed.

Lemma bmi_weight70_height175_witness :
  exists r, validate ComputedFields.Patient (Samples.patient_height (7 # 4)) = Valid r /\
  ComputedFields.bmi r = Ok (PFloat (4000 # 100)).
Proof.
  eexists. split; [vm_compute; reflexivity|].
  apply (bmi_weight70_height175
           (("name", PStr "Arshnoor") :: ("email", PStr "arsh@hdfc.com")
              :: ("age", PInt 24) :: ("weight", PFloat 70)
              :: ("height", PFloat (7 # 4)) :: nil));
    reflexivity.
Defined.

Lemma bmi_value (r : record) (w h : Q) :
  lookup "weight" r = Some (PFloat w) ->
  lookup "height" r = Some (PFloat h) ->
  ComputedFields.bmi r =
    if Qeq_bool h 0 then Raise ZeroDivisionError
    else Ok (PFloat (to_double (Qmake (round_half_even (to_double (w / h) * 100)) 100))).
Proof.
  intros Hw Hh. unfold ComputedFields.bmi, getattr. rewrite Hw, Hh.
  unfold py_truediv; cbn [pybind py_num py_float]. destruct (Qeq_bool h 0); reflexivity.
Qed.




(** ** The field validators of [3_field_validator.py] *)

Lemma name_field_no_escape : no_escape FieldValidator.name_field.
Proof.
  intros [v|] e; [|discriminate].
  destruct v; cbn; discriminate.
Qed.

Lemma email_field_no_escape : no_escape FieldValidator.email_field.
Proof.
  intros [v|] e; [|discriminate].
  destruct v; cbn; try discriminate.
  destruct (is_email s); cbn; [|discriminate].
  match goal with |- context [if negb ?b then _ else _] => destruct b end;
    cbn; discriminate.
Qed.

(** C3 (code_bug): the "before" validator [validate_age] compares the raw
    value with [0 < value < 100]; for a raw age that is not a number
    (e.g. the string "twenty") the comparison raises [TypeError], which
    pydantic does not collect: [Patient.model_validate(raw)] ends with that exception
    instead of a [ValidationError]. *)
Theorem non_numeric_age_escapes (raw : record) (v : pyval) :
  lookup "age" raw = Some v -> py_num v = Raise TypeError ->
  validate FieldValidator.Patient raw = Uncaught TypeError.
Proof.
  intros Hv Hn. unfold validate. cbn [sfields FieldValidator.Patient validate_fields].
  assert (Hage : validate_field FieldValidator.age_field (lookup "age" raw) = FExc TypeError).
  { rewrite Hv. unfold validate_field. cbn [fbefore FieldValidator.age_field run_hooks].
    unfold FieldValidator.validate_age, py_lt. cbn. rewrite Hn. reflexivity. }
  cbn [fname FieldValidator.age_field] in Hage. cbn [fname FieldValidator.name_field
    FieldValidator.email_field FieldValidator.age_field]. rewrite Hage.
  destruct (validate_field FieldValidator.name_field (lookup "name" raw)) eqn:E1;
    [| |exfalso; eapply name_field_no_escape; eauto];
  destruct (validate_field FieldValidator.email_field (lookup "email" raw)) eqn:E2;
    try (exfalso; eapply email_field_no_escape; eauto; fail); reflexivity.
Qed.

Lemma non_numeric_age_escapes_witness :
  validate FieldValidator.Patient Samples.patient_text_age = Uncaught TypeError.
Proof.
  apply (non_numeric_age_escapes Samples.patient_text_age (PStr "twenty")); reflexivity.
Defined.

Lemma email_field_value (ov : option pyval) (w : pyval) :
  validate_field FieldValidator.email_field ov = FOk w -> w = PNone.
Proof.
  intros H. destruct ov as [v|]; [|discriminate].
  destruct v; cbn in H; try discriminate.
  destruct (is_email s); cbn in H; [|discriminate].
  match type of H with context [if negb ?b then _ else _] => destruct b end;
    cbn in H; try discriminate; congruence.
Qed.

(** C4 (code_bug): [email_validator] checks the domain but has no
    [return value]; pydantic stores what an "after" validator returns, so
    every record the 3_field_validator Patient accepts has [email = None]. *)
Theorem email_stored_as_none (raw r : record) :
  validate FieldValidator.Patient raw = Valid r -> lookup "email" r = Some PNone.
Proof.
  unfold validate. destruct (validate_fields _ raw) eqn:E; try discriminate.
  cbn [run_mhooks smodel_after FieldValidator.Patient]. intros H; inv H.
  destruct (validated_field_value _ _ _ FieldValidator.email_field E) as [w [Hl Hw]].
  - distinct_names.
  - cbn; tauto.
  - apply email_field_value in Hw. subst w. exact Hl.
Qed.

Lemma email_stored_as_none_witness :
  exists r, validate FieldValidator.Patient Samples.patient_base = Valid r /\
  lookup "email" r = Some PNone.
Proof.
  eexists. split; [vm_compute; reflexivity|].
  apply (email_stored_as_none Samples.patient_base). vm_compute. reflexivity.
Defined.

(** ** The model validator of [3_model_validator.py] *)

(** C5 (confirmed): with age 65 and contact details [{'phone': '123'}] no
    record is built, and when every field validates the only error is the
    model hook's.  With age 65 and contact details [{'phone': '123',
    'emergency': '911'}] the model hook never rejects: the candidate is
    accepted whenever its fields validate, and any error comes from the
    fields.  The samples of both kinds are rejected and accepted. *)
Theorem emergency_contact_rule :
  (forall raw : record,
     lookup "age" raw = Some (PInt 65) ->
     lookup "contact_details" raw = Some (PDict [("phone", PStr "123")]) ->
     match validate_fields (sfields ModelValidator.Patient) raw with
     | FsOk _ => validate ModelValidator.Patient raw = Invalid [([], HOOK_VIOLATION)]
     | _ => exists es, validate ModelValidator.Patient raw = Invalid es
     end) /\
  (forall raw : record,
     lookup "age" raw = Some (PInt 65) ->
     lookup "contact_details" raw
       = Some (PDict [("phone", PStr "123"); ("emergency", PStr "911")]) ->
     match validate_fields (sfields ModelValidator.Patient) raw with
     | FsOk r => validate ModelValidator.Patient raw = Valid r
     | _ => exists es, validate ModelValidator.Patient raw = Invalid es
     end) /\
  validate ModelValidator.Patient Samples.senior_no_emergency = Invalid [([], HOOK_VIOLATION)] /\
  (exists r, validate ModelValidator.Patient Samples.senior_emergency = Valid r).
Proof.
  split; [|split; [|split; [vm_compute; reflexivity|eexists; vm_compute; reflexivity]]].
  all: intros raw Ha Hc; unfold validate.
  all: destruct (validate_fields (sfields ModelValidator.Patient) raw) eqn:E;
    [|eauto|exfalso; eapply validate_fields_no_escape; [|exact E]; all_hook_free].
  all: destruct (validated_field_value _ _ _ (plain "age" TInt) E) as [wa [Hla Hwa]];
      [distinct_names|cbn; tauto|].
  all: destruct (validated_field_value _ _ _ (plain "contact_details" (TDict TStr)) E)
      as [wc [Hlc Hwc]]; [distinct_names|cbn; tauto|].
  all: cbn [fname plain] in *; rewrite Ha in Hwa; rewrite Hc in Hwc.
  all: cbn in Hwa, Hwc; inv Hwa; inv Hwc.
  all: cbn [run_mhooks smodel_after ModelValidator.Patient].
  all: unfold ModelValidator.validate_emergency_contact, getattr.
  all: rewrite Hla; cbn; rewrite Hlc; reflexivity.
Qed.

Lemma emergency_contact_rule_witness :
  (lookup "age" Samples.senior_no_emergency = Some (PInt 65) /\
   lookup "contact_details" Samples.senior_no_emergency = Some (PDict [("phone", PStr "123")]) /\
   match validate_fields (sfields ModelValidator.Patient) Samples.senior_no_emergency with
   | FsOk _ => validate ModelValidator.Patient Samples.senior_no_emergency
               = Invalid [([], HOOK_VIOLATION)]
   | _ => exists es, validate ModelValidator.Patient Samples.senior_no_emergency = Invalid es
   end) /\
  (lookup "age" Samples.senior_emergency = Some (PInt 65) /\
   lookup "contact_details" Samples.senior_emergency
     = Some (PDict [("phone", PStr "123"); ("emergency", PStr "911")]) /\
   match validate_fields (sfields ModelValidator.Patient) Samples.senior_emergency with
   | FsOk r => validate ModelValidator.Patient Samples.senior_emergency = Valid r
   | _ => exists es, validate ModelValidator.Patient Samples.senior_emergency = Invalid es
   end).
Proof.
  split.
  - split; [reflexivity|split; [reflexivity|]].
    apply (proj1 emergency_contact_rule); reflexivity.
  - split; [reflexivity|split; [reflexivity|]].
    apply (proj1 (proj2 emergency_contact_rule)); reflexivity.
Defined.

(** ** Strict and lax coercion in [2_Pydantic.py] *)

(** C6 (corrected): the strict float field [weight] accepts a float, and
    also an int within the double range, stored as the nearest float; then
    it checks [gt=0].  Every other raw value (an int past the double range
    such as [10**400], a bool, a string, None, a list, a dict, a model) is a
    type mismatch, and an input carrying one yields no record. *)
Theorem strict_weight_int_or_float :
  (forall v : pyval,
     validate_field Pydantic2.weight_field (Some v) =
     match v with
     | PFloat x =>
         if Qle_bool x 0 then FErr [([LKey "weight"], OUT_OF_RANGE)] else FOk (PFloat x)
     | PInt z =>
         if in_double_range (inject_Z z) then
           if Qle_bool (to_double (inject_Z z)) 0 then FErr [([LKey "weight"], OUT_OF_RANGE)]
           else FOk (PFloat (to_double (inject_Z z)))
         else FErr [([LKey "weight"], TYPE_MISMATCH)]
     | _ => FErr [([LKey "weight"], TYPE_MISMATCH)]
     end) /\
  (forall (raw : record) (v : pyval),
     lookup "weight" raw = Some v ->
     match v with
     | PFloat _ => False
     | PInt z => in_double_range (inject_Z z) = false
     | _ => True
     end ->
     exists es, validate Pydantic2.Patient raw = Invalid es /\
                In ([LKey "weight"], TYPE_MISMATCH) es).
Proof.
  assert (Hf : forall v : pyval,
     validate_field Pydantic2.weight_field (Some v) =
     match v with
     | PFloat x =>
         if Qle_bool x 0 then FErr [([LKey "weight"], OUT_OF_RANGE)] else FOk (PFloat x)
     | PInt z =>
         if in_double_range (inject_Z z) then
           if Qle_bool (to_double (inject_Z z)) 0 then FErr [([LKey "weight"], OUT_OF_RANGE)]
           else FOk (PFloat (to_double (inject_Z z)))
         else FErr [([LKey "weight"], TYPE_MISMATCH)]
     | _ => FErr [([LKey "weight"], TYPE_MISMATCH)]
     end).
  { intros v. destruct v; cbn -[in_double_range to_double Qle_bool]; try reflexivity.
    - destruct (in_double_range (inject_Z z)); [|reflexivity].
      unfold check_constraints, check_gt, check_lt, check_max_length; cbn -[to_double Qle_bool].
      destruct (Qle_bool (to_double (inject_Z z)) 0); reflexivity.
    - unfold check_constraints, check_gt, check_lt, check_max_length; cbn -[Qle_bool].
      destruct (Qle_bool q 0); reflexivity. }
  split; [exact Hf|].
  intros raw v Hv Hn.
  destruct (validate_fields_err (sfields Pydantic2.Patient) raw Pydantic2.weight_field
              [([LKey "weight"], TYPE_MISMATCH)]) as [es [He Hi]].
  - all_hook_free.
  - cbn; tauto.
  - cbn [fname Pydantic2.weight_field]. rewrite Hv, Hf.
    destruct v; try reflexivity; [rewrite Hn; reflexivity|destruct Hn].
  - exists es. unfold validate. rewrite He. split; [reflexivity|]. apply Hi; left; reflexivity.
Qed.

Lemma strict_weight_int_or_float_witness :
  lookup "weight" (("weight", PInt (10 ^ 400)) :: Samples.patient_info_url)
    = Some (PInt (10 ^ 400)) /\
  in_double_range (inject_Z (10 ^ 400)) = false /\
  exists es, validate Pydantic2.Patient (("weight", PInt (10 ^ 400)) :: Samples.patient_info_url)
             = Invalid es /\ In ([LKey "weight"], TYPE_MISMATCH) es.
Proof.
  split; [reflexivity|split; [vm_compute; reflexivity|]].
  apply (proj2 strict_weight_int_or_float _ (PInt (10 ^ 400)));
    [reflexivity|vm_compute; reflexivity].
Defined.

(** C6, counterexample: the int 70 given for the strict float [weight]
    (as in [patient_info]) is not a violation; the record stores 70.0. *)
Lemma strict_weight_accepts_int :
  lookup "weight" Samples.patient_info_url = Some (PInt 70) /\
  exists r, validate Pydantic2.Patient Samples.patient_info_url = Valid r /\
            lookup "weight" r = Some (PFloat 70).
Proof.
  split; [reflexivity|]. eexists. split; [vm_compute; reflexivity|reflexivity].
Qed.

(** C10 (confirmed): the lax bool field [married] turns the int 1 into
    [True]; the completed [patient_info] (which supplies [married: 1])
    validates. *)
Theorem married_int_one_is_true :
  (forall raw r : record,
     lookup "married" raw = Some (PInt 1) ->
     validate Pydantic2.Patient raw = Valid r ->
     lookup "married" r = Some (PBool true)) /\
  lookup "married" Samples.patient_info_url = Some (PInt 1) /\
  (exists r, validate Pydantic2.Patient Samples.patient_info_url = Valid r).
Proof.
  split; [|split; [reflexivity|eexists; vm_compute; reflexivity]].
  intros raw r Hm. unfold validate.
  destruct (validate_fields _ raw) eqn:E; try discriminate.
  cbn [run_mhooks smodel_after Pydantic2.Patient]. intros H; inv H.
  destruct (validated_field_value _ _ _ Pydantic2.married_field E) as [w [Hl Hw]];
    [distinct_names|cbn; tauto|].
  cbn [fname Pydantic2.married_field] in *. rewrite Hm in Hw. cbn in Hw. inv Hw.
  exact Hl.
Qed.

Lemma married_int_one_is_true_witness :
  exists r, validate Pydantic2.Patient Samples.patient_info_url = Valid r /\
            lookup "married" r = Some (PBool true).
Proof.
  eexists. split; [vm_compute; reflexivity|].
  apply (proj1 married_int_one_is_true Samples.patient_info_url); [reflexivity|].
  vm_compute; reflexivity.
Defined.

(** ** Serialization filters in [6_serialization.py] *)

(** C8 (confirmed): [model_dump(exclude={'address': ['state']})] drops
    only [state] from the nested address; the outer fields are dumped
    unchanged. *)
Theorem exclude_nested_state (n g c st p : string) (a : Z) :
  model_dump Serialization.Patient
    [("name", PStr n); ("gender", PStr g); ("age", PInt a);
     ("address", PModel [("city", PStr c); ("state", PStr st); ("pin", PStr p)])]
    None (Some (FSub [("address", names ["state"])]))
  = Ok [("name", PStr n); ("gender", PStr g); ("age", PInt a);
        ("address", PDict [("city", PStr c); ("pin", PStr p)])].
Proof. reflexivity. Qed.

Lemma lookup_names (k : string) (ns : list string) :
  lookup k (map (fun n => (n, FAll)) ns) = if mem k ns then Some FAll else None.
Proof.
  induction ns as [|n ns IH]; cbn; [reflexivity|].
  destruct (String.eqb k n); [reflexivity|exact IH].
Qed.

(** C9 (corrected): given both an include list and an exclude list,
    [model_dump] rejects nothing: it keeps the stored fields named in
    [include] and not named in [exclude]. *)
Theorem include_exclude_combined (S : schema) (r : record) (inc exc : list string) :
  scomputed S = [] ->
  model_dump S r (Some (names inc)) (Some (names exc)) =
  Ok (map (fun '(k, x) => (k, dump_val None None x))
          (filter (fun '(k, _) => mem k inc && negb (mem k exc)) r)).
Proof.
  intros Hc. unfold model_dump. rewrite Hc. cbn. rewrite app_nil_r. f_equal.
  unfold dump_fields.
  induction r as [|[k x] r IH]; cbn; [reflexivity|].
  unfold keep, included, excluded, sub, names in *. rewrite !lookup_names.
  destruct (mem k inc), (mem k exc); cbn; rewrite ?IH; reflexivity.
Qed.

Lemma include_exclude_combined_witness :
  scomputed Serialization.Patient = [] /\
  model_dump Serialization.Patient
    [("name", PStr "Arshnoor"); ("gender", PStr "male"); ("age", PInt 26)]
    (Some (names ["name"])) (Some (names ["age"]))
  = Ok [("name", PStr "Arshnoor")].
Proof.
  split; [reflexivity|].
  apply (include_exclude_combined Serialization.Patient); reflexivity.
Defined.

(** C9, counterexample: [model_dump(include=['name'], exclude=['age'])] on
    the patient of the script returns [{'name': 'Arshnoor'}]. *)
Lemma include_exclude_not_rejected :
  exists r, validate Serialization.Patient Serialization.patient_dict = Valid r /\
  model_dump Serialization.Patient r (Some (names ["name"])) (Some (names ["age"]))
  = Ok [("name", PStr "Arshnoor")].
Proof. eexists. split; [vm_compute; reflexivity|]. vm_compute. reflexivity. Qed.

(** ** Normalised email addresses *)

Lemma split_on_nonempty (c : ascii) (s : string) : split_on c s <> [].
Proof.
  destruct s as [|x s]; cbn; [discriminate|].
  destruct (Ascii.eqb x c); [discriminate|]. destruct (split_on c s); discriminate.
Qed.

Lemma split_on_app (c : ascii) (s1 s2 : string) :
  split_on c (append s1 (String c s2)) = app (split_on c s1) (split_on c s2).
Proof.
  induction s1 as [|x s1 IH]; cbn [append split_on].
  - rewrite Ascii.eqb_refl. reflexivity.
  - rewrite IH. destruct (Ascii.eqb x c); [reflexivity|].
    destruct (split_on c s1) eqn:E; [exfalso; exact (split_on_nonempty c s1 E)|reflexivity].
Qed.

(** The parts of a split contain no separator. *)
Lemma split_on_parts (c : ascii) (s : string) :
  Forall (fun p => split_on c p = [p]) (split_on c s).
Proof.
  induction s as [|x s IH]; cbn [split_on]; [repeat constructor|].
  destruct (Ascii.eqb x c) eqn:E; [constructor; [reflexivity|exact IH]|].
  destruct (split_on c s) as [|p ps];
    [constructor; [cbn; rewrite E; reflexivity|constructor]|].
  inversion IH as [|? ? Hp Hps]; subst.
  constructor; [|exact Hps]. cbn [split_on]. rewrite E, Hp. reflexivity.
Qed.

Lemma ascii_lower_idem (x : ascii) : ascii_lower (ascii_lower x) = ascii_lower x.
Proof. destruct x as [[] [] [] [] [] [] [] []]; reflexivity. Qed.

Lemma str_lower_idem (s : string) : str_lower (str_lower s) = str_lower s.
Proof. induction s as [|x s IH]; cbn; [reflexivity|rewrite ascii_lower_idem, IH; reflexivity]. Qed.

Lemma lower_at (x : ascii) : Ascii.eqb (ascii_lower x) "@" = Ascii.eqb x "@".
Proof. destruct x as [[] [] [] [] [] [] [] []]; reflexivity. Qed.

Lemma lower_dot (x : ascii) : Ascii.eqb (ascii_lower x) "." = Ascii.eqb x ".".
Proof. destruct x as [[] [] [] [] [] [] [] []]; reflexivity. Qed.

(** Lower-casing commutes with splitting on a character that is no
    letter. *)
Lemma split_on_lower (c : ascii) (s : string) :
  (forall x, Ascii.eqb (ascii_lower x) c = Ascii.eqb x c) ->
  split_on c (str_lower s) = map str_lower (split_on c s).
Proof.
  intros Hc. induction s as [|x s IH]; cbn [str_lower split_on]; [reflexivity|].
  rewrite IH, Hc. destruct (Ascii.eqb x c); [reflexivity|].
  destruct (split_on c s); reflexivity.
Qed.

Lemma forallb_nonempty_lower (l : list string) :
  forallb (fun p => negb (String.eqb p "")) (map str_lower l) =
  forallb (fun p => negb (String.eqb p "")) l.
Proof. induction l as [|p l IH]; cbn; [reflexivity|]. rewrite IH. destruct p; reflexivity. Qed.

Lemma normalize_email_split (s local dom : string) :
  split_on "@" s = [local; dom] ->
  normalize_email s = append local (String "@" (str_lower dom)) /\
  split_on "@" (normalize_email s) = [local; str_lower dom].
Proof.
  intros H. unfold normalize_email. rewrite H. split; [reflexivity|].
  pose proof (split_on_parts "@" s) as P. rewrite H in P.
  inversion P as [|? ? Pl P']; subst. inversion P' as [|? ? Pd _]; subst.
  rewrite split_on_app, Pl, (split_on_lower _ _ lower_at), Pd. reflexivity.
Qed.

(** The normalised address is again an address and is its own normal
    form. *)
Lemma is_email_normalize (s : string) :
  is_email s = true ->
  is_email (normalize_email s) = true /\ normalize_email (normalize_email s) = normalize_email s.
Proof.
  unfold is_email at 1. destruct (split_on "@" s) as [|local [|dom [|x l]]] eqn:E;
    try discriminate.
  intros H. destruct (normalize_email_split s local dom E) as [Hn Hs].
  remember (normalize_email s) as n eqn:En. split.
  - unfold is_email. rewrite Hs, (split_on_lower _ _ lower_dot), length_map,
      forallb_nonempty_lower. exact H.
  - unfold normalize_email at 1. rewrite Hs, str_lower_idem. symmetry; exact Hn.
Qed.

(** ** Round trip through [model_dump] *)

Section RoundTrip.

Lemma vprefix_ok {A} (l : locpart) (r : vres A) (a : A) :
  vprefix l r = VOk a <-> r = VOk a.
Proof. destruct r; cbn; split; intro H; inv H; reflexivity. Qed.

Lemma vmap_idx_prefix_ok {A} (g : A -> vres pyval) (i : nat) (l : list A) (ws : list pyval) :
  vmap_idx (fun j x => vprefix (LIdx j) (g x)) i l = VOk ws <->
  Forall2 (fun x w => g x = VOk w) l ws.
Proof.
  revert i ws; induction l as [|x l IH]; intros i ws; cbn.
  - split; intro H; inv H; [constructor|reflexivity].
  - split; intro H.
    + destruct (g x) eqn:Eg; destruct (vmap_idx _ (S i) l) eqn:El; cbn in H;
        try discriminate.
      inv H. constructor; [assumption|]. apply (IH (S i)). exact El.
    + inv H. rewrite H2. apply (IH (S i)) in H4. rewrite H4. reflexivity.
Qed.

Lemma vmap_assoc_ok {A B} (f : string -> A -> vres B) (d : list (string * A))
    (d' : list (string * B)) :
  vmap_assoc f d = VOk d' <->
  Forall2 (fun e e' => fst e' = fst e /\ f (fst e) (snd e) = VOk (snd e')) d d'.
Proof.
  revert d'; induction d as [|[k x] d IH]; intros d'; cbn.
  - split; intro H; inv H; [constructor|reflexivity].
  - split; intro H.
    + destruct (f k x) eqn:Ef; destruct (vmap_assoc f d) eqn:Ed; cbn in H;
        try discriminate.
      inv H. constructor; [cbn; auto|]. apply IH. reflexivity.
    + inv H. destruct y as [k' w]. destruct H2 as [Hk Hf]. cbn in *. subst k'.
      rewrite Hf. apply IH in H4. rewrite H4. reflexivity.
Qed.

Lemma dump_assoc_none {A} (g : option filt -> option filt -> A -> pyval)
    (d : list (string * A)) :
  dump_assoc g None None d = map (fun '(k, x) => (k, g None None x)) d.
Proof. induction d as [|[k x] d IH]; cbn; [reflexivity|rewrite IH; reflexivity]. Qed.

Lemma Forall2_impl_in {A B} (P Q : A -> B -> Prop) (l1 : list A) (l2 : list B) :
  Forall2 P l1 l2 ->
  (forall a b, In a l1 -> In b l2 -> P a b -> Q a b) -> Forall2 Q l1 l2.
Proof.
  induction 1 as [|a b l1 l2 Hab H12 IH]; intros H; constructor.
  - apply H; cbn; auto.
  - apply IH. intros a' b' Ha Hb. apply H; cbn; auto.
Qed.

Lemma lookup_in_nodup {A} (r : list (string * A)) (n : string) (w : A) :
  NoDup (map fst r) -> In (n, w) r -> lookup n r = Some w.
Proof.
  induction r as [|[k x] r IH]; intros Hnd Hin; [destruct Hin|].
  cbn in *. inv Hnd. destruct Hin as [Heq|Hin].
  - inv Heq. rewrite String.eqb_refl. reflexivity.
  - destruct (String.eqb n k) eqn:E.
    + apply String.eqb_eq in E. subst k. exfalso. apply H1.
      apply (in_map fst) in Hin. exact Hin.
    + apply IH; auto.
Qed.

Lemma lookup_map_snd {A B} (g : A -> B) (r : list (string * A)) (n : string) :
  lookup n (map (fun '(k, x) => (k, g x)) r) = option_map g (lookup n r).
Proof.
  induction r as [|[k x] r IH]; cbn; [reflexivity|].
  destruct (String.eqb n k); [reflexivity|exact IH].
Qed.

Lemma lookup_app_some {A} (l1 l2 : list (string * A)) (n : string) (v : A) :
  lookup n l1 = Some v -> lookup n (app l1 l2) = Some v.
Proof.
  induction l1 as [|[k x] l1 IH]; cbn; [discriminate|].
  destruct (String.eqb n k); [auto|exact IH].
Qed.

Lemma all_snd_In {A} (p : A -> Prop) (l : list (string * A)) (k : string) (x : A) :
  all_snd p l -> In (k, x) l -> p x.
Proof.
  induction l as [|[k' x'] l IH]; cbn; [tauto|].
  intros [Hx Hl] [Heq|Hin]; [inv Heq; exact Hx|exact (IH Hl Hin)].
Qed.

Lemma Forall2_map_fst {A B} (fa : A -> string) (R : A -> string * B -> Prop)
    (l1 : list A) (l2 : list (string * B)) :
  Forall2 R l1 l2 -> (forall a e, R a e -> fst e = fa a) -> map fst l2 = map fa l1.
Proof. induction 1 as [|x y l1 l2 Hxy _ IH]; intros Hf; cbn; f_equal; auto. Qed.

Ltac ok_shape H :=
  unfold mismatch in H;
  repeat match type of H with
         | context [if ?c then _ else _] => destruct c
         | context [match ?x with Some _ => _ | None => _ end] => destruct x
         end;
  try discriminate; inv H; eauto.

Lemma coerce_int_shape (s : bool) (v w : pyval) :
  coerce_int s v = VOk w -> exists z, w = PInt z.
Proof. unfold coerce_int; destruct v; intro H; ok_shape H. Qed.

Lemma coerce_float_shape (s : bool) (v w : pyval) :
  coerce_float s v = VOk w -> exists q, w = PFloat q.
Proof. unfold coerce_float; destruct v; intro H; ok_shape H. Qed.

Lemma coerce_bool_shape (s : bool) (v w : pyval) :
  coerce_bool s v = VOk w -> exists b, w = PBool b.
Proof. unfold coerce_bool; destruct v; intro H; cbn in H; ok_shape H. Qed.

Lemma dump_val_not_none (v : pyval) : v <> PNone -> dump_val None None v <> PNone.
Proof. destruct v; cbn; congruence. Qed.

(** Coercing the dump of a coerced value gives that value back. *)
Lemma coerce_dump_stable (t : ftype) :
  wf_ftype t ->
  forall s v w, coerce s t v = VOk w -> coerce s t (dump_val None None w) = VOk w.
Proof.
  induction t as [| | | | | |t IH|t IH|t IH|fs IH] using ftype_ind';
    intros Hwf s v w H.
  - destruct v; cbn in H; unfold mismatch in H; try discriminate. inv H. reflexivity.
  - destruct v; cbn in H; unfold mismatch in H; try discriminate.
    destruct (is_email s0) eqn:E; inv H. cbn [coerce dump_val].
    destruct (is_email_normalize _ E) as [E1 E2]. rewrite E1, E2. reflexivity.
  - destruct v; cbn in H; unfold mismatch in H; try discriminate.
    destruct (is_url s0) eqn:E; inv H. cbn. rewrite E. reflexivity.
  - destruct (coerce_int_shape _ _ _ H) as [z ->]. reflexivity.
  - destruct (coerce_float_shape _ _ _ H) as [q ->]. reflexivity.
  - destruct (coerce_bool_shape _ _ _ H) as [b ->]. reflexivity.
  - cbn in Hwf. destruct v; cbn in H; unfold mismatch in H; try discriminate.
    destruct (vmap_idx _ 0 l) eqn:E; inv H.
    apply vmap_idx_prefix_ok in E.
    assert (E' : Forall2 (fun x w => coerce s t x = VOk w)
                   (map (dump_val None None) a) a).
    { clear -E IH Hwf. induction E; cbn; constructor; eauto. }
    apply (vmap_idx_prefix_ok _ 0) in E'. cbn. rewrite E'. reflexivity.
  - cbn in Hwf. destruct v; cbn in H; unfold mismatch in H; try discriminate.
    destruct (vmap_assoc _ d) eqn:E; inv H.
    apply vmap_assoc_ok in E.
    assert (E' : Forall2 (fun e e' => fst e' = fst e /\
                   vprefix (LKey (fst e)) (coerce s t (snd e)) = VOk (snd e'))
                   (map (fun '(k, x) => (k, dump_val None None x)) a) a).
    { clear -E IH Hwf. induction E as [|[k x] [k' w] d d' [Hk Hc] _ IHE]; cbn in *;
        constructor; auto.
      subst k'. split; [reflexivity|]. apply vprefix_ok in Hc. apply vprefix_ok. eauto. }
    apply (vmap_assoc_ok (fun k x => vprefix (LKey k) (coerce s t x))) in E'.
    cbn. rewrite dump_assoc_none, E'. reflexivity.
  - cbn in Hwf. destruct v; cbn in H; try (inv H; reflexivity);
      pose proof (IH Hwf _ _ _ H) as H';
      (destruct w; [reflexivity| cbn in H' |- *; exact H' ..]).
  - cbn in Hwf. destruct Hwf.
Qed.

Lemma field_stable (f : field) (ov : option pyval) (w : pyval) :
  field_rt_ok f -> validate_field f ov = FOk w ->
  validate_field f (Some (dump_val None None w)) = FOk w.
Proof.
  intros [Hb [Ha [Hd Hwf]]] H. unfold validate_field in *. rewrite Hb, Ha in *.
  destruct ov as [v|]; [|rewrite Hd in H; discriminate].
  cbn [run_hooks pybind] in *.
  destruct (coerce (fstrict f) (ftyp f) v) eqn:E; [|discriminate].
  destruct (check_constraints f a) eqn:C; [discriminate|]. inv H.
  rewrite (coerce_dump_stable _ Hwf _ _ _ E), C. reflexivity.
Qed.

(** Validation, dump without filters, validation again: the same record,
    for schemas whose fields have no validator and no default and whose
    model validators return the instance they are given. *)
Lemma validate_dump_roundtrip (S : schema) (raw r d : record) :
  Forall field_rt_ok (sfields S) -> NoDup (map fname (sfields S)) ->
  (forall r r', run_mhooks (smodel_after S) r = Ok r' -> r' = r) ->
  validate S raw = Valid r -> model_dump S r None None = Ok d -> validate S d = Valid r.
Proof.
  intros Hok Hnd Hm Hv Hd. unfold validate in *.
  destruct (validate_fields (sfields S) raw) as [r0| |] eqn:E; try discriminate.
  destruct (run_mhooks (smodel_after S) r0) as [r1|e] eqn:M;
    [|destruct (collected e); discriminate].
  inv Hv. pose proof (Hm _ _ M) as Hr; subst r.
  unfold model_dump in Hd.
  destruct (dump_computed (scomputed S) r0 None None) as [comp|e] eqn:C;
    cbn in Hd; [|discriminate]. inv Hd.
  apply validate_fields_ok_iff in E.
  assert (Hk : NoDup (map fst r0))
    by (rewrite (Forall2_map_fst fname _ _ _ E); [exact Hnd|intros ? ? []; auto]).
  assert (E' : validate_fields (sfields S) (app (dump_fields None None r0) comp) = FsOk r0).
  { apply validate_fields_ok_iff. apply (Forall2_impl_in _ _ _ _ E).
    intros f [n w] Hf Hin [Hn Hw]; cbn in *; subst n. split; [reflexivity|].
    unfold dump_fields. rewrite dump_assoc_none.
    rewrite (lookup_app_some _ _ _ (dump_val None None w)).
    - eapply field_stable; [|exact Hw]. rewrite Forall_forall in Hok. auto.
    - rewrite lookup_map_snd, (lookup_in_nodup r0 _ w Hk Hin). reflexivity. }
  rewrite E', M. reflexivity.
Qed.

End RoundTrip.

Ltac rt_fields :=
  cbn; repeat constructor;
  repeat match goal with
         | |- ~ In _ _ =>
             let H := fresh in
             intros H; repeat (destruct H as [H|H]; [discriminate|]); exact H
         end.

Lemma validate_no_model_hook (S : schema) (raw r : record) :
  smodel_after S = [] -> validate S raw = Valid r -> validate_fields (sfields S) raw = FsOk r.
Proof.
  intros Hm. unfold validate. rewrite Hm.
  destruct (validate_fields (sfields S) raw); cbn; congruence.
Qed.

Lemma check_plain (n : string) (t : ftype) (v : pyval) :
  check_constraints (plain n t) v = None.
Proof. unfold check_constraints, check_gt, check_lt, check_max_length. destruct v; reflexivity. Qed.

Lemma float_plain_value (n : string) (ov : option pyval) (w : pyval) :
  validate_field (plain n TFloat) ov = FOk w -> exists q, w = PFloat q.
Proof.
  intros H. destruct ov as [v|]; [|discriminate].
  unfold validate_field in H. cbn [run_hooks pybind fbefore fafter plain ftyp fstrict] in H.
  destruct (coerce false TFloat v) eqn:E; [|discriminate].
  rewrite check_plain in H. cbn in H. inv H.
  exact (coerce_float_shape _ _ _ E).
Qed.

Lemma emergency_returns_model (r r' : record) :
  run_mhooks [ModelValidator.validate_emergency_contact] r = Ok r' -> r' = r.
Proof.
  intros H. cbn [run_mhooks pybind] in H.
  destruct (ModelValidator.validate_emergency_contact r) as [m|e] eqn:E; [|discriminate].
  inv H. unfold ModelValidator.validate_emergency_contact in E.
  destruct (getattr r "age") as [a|]; cbn [pybind] in E; [|discriminate].
  destruct (py_lt (PInt 60) a) as [[|]|]; cbn [pybind] in E; [|congruence|discriminate].
  destruct (getattr r "contact_details") as [c|]; cbn [pybind] in E; [|discriminate].
  destruct (py_contains c "emergency") as [[|]|]; cbn [pybind negb] in E; congruence.
Qed.

(** A field without validators stores its default when the value is
    missing, and otherwise the coerced value, which meets the constraints. *)
Lemma hook_free_value (f : field) (ov : option pyval) (w : pyval) :
  validate_field f ov = FOk w -> fbefore f = [] -> fafter f = [] ->
  (ov = None /\ fdefault f = Some w) \/
  (exists v, ov = Some v /\ coerce (fstrict f) (ftyp f) v = VOk w /\
             check_constraints f w = None).
Proof.
  intros H Hb Ha. unfold validate_field in H. rewrite Hb, Ha in H.
  destruct ov as [v|].
  - right. exists v. cbn [run_hooks] in H.
    destruct (coerce (fstrict f) (ftyp f) v) eqn:E; [|discriminate].
    destruct (check_constraints f a) eqn:C; [discriminate|]. inv H. auto.
  - left. destruct (fdefault f); [inv H|discriminate]. auto.
Qed.

Lemma plain_value (n : string) (t : ftype) (ov : option pyval) (w : pyval) :
  validate_field (plain n t) ov = FOk w ->
  exists v, ov = Some v /\ coerce false t v = VOk w.
Proof.
  intros H. destruct (hook_free_value _ _ _ H eq_refl eq_refl)
    as [[_ Hd]|[v [Hv [Hc _]]]]; [discriminate|eauto].
Qed.

Ltac str_field H :=
  let v := fresh "v" in
  apply plain_value in H as [v [_ H]];
  destruct v; cbn in H; unfold mismatch in H; try discriminate; inv H.

Ltac addr_entry H :=
  let x := fresh "x" in
  match type of H with
  | context [lookup ?k ?d] =>
      destruct (lookup k d) as [x|]; [|discriminate];
      apply vprefix_ok in H; destruct x; cbn in H; unfold mismatch in H;
      try discriminate; inv H
  end.

(** A record the Patient of [6_serialization.py] builds: the declared
    fields in order, the address being the Address instance given, kept as
    it is, or the one built from a dict, with str city, state and pin. *)
Lemma serialization_valid_shape (raw r : record) :
  validate Serialization.Patient raw = Valid r ->
  exists n g a d,
    r = [("name", PStr n); ("gender", PStr g); ("age", PInt a); ("address", PModel d)] /\
    (lookup "address" raw = Some (PModel d) \/
     exists c st p, d = [("city", PStr c); ("state", PStr st); ("pin", PStr p)]).
Proof.
  intros Hv. pose proof (validate_no_model_hook Serialization.Patient raw r eq_refl Hv) as E.
  apply validate_fields_ok_iff in E. cbn [sfields Serialization.Patient] in E.
  inversion E as [|f1 [k1 w1] fs1 r1 [Hk1 H1] E1]; subst; clear E.
  inversion E1 as [|f2 [k2 w2] fs2 r2 [Hk2 H2] E2]; subst; clear E1.
  inversion E2 as [|f3 [k3 w3] fs3 r3 [Hk3 H3] E3]; subst; clear E2.
  inversion E3 as [|f4 [k4 w4] fs4 r4 [Hk4 H4] E4]; subst; clear E3.
  inversion E4; subst; clear E4.
  cbn [fst snd fname plain] in *; subst.
  str_field H1. str_field H2.
  apply plain_value in H3 as [v3 [_ H3]]. destruct (coerce_int_shape _ _ _ H3) as [a ->].
  apply plain_value in H4 as [v4 [Hv4 H4]].
  destruct v4; cbn [coerce] in H4; unfold mismatch in H4; try discriminate.
  - destruct (vmap_assoc _ _) as [ws|] eqn:Va; inv H4.
    apply vmap_assoc_ok in Va; cbn [Serialization.Address_fields] in Va.
    inversion Va as [|e1 [k5 x5] l1 l1' [Hk5 H5] Va1]; subst; clear Va.
    inversion Va1 as [|e2 [k6 x6] l2 l2' [Hk6 H6] Va2]; subst; clear Va1.
    inversion Va2 as [|e3 [k7 x7] l3 l3' [Hk7 H7] Va3]; subst; clear Va2.
    inversion Va3; subst; clear Va3.
    cbn [fst snd] in *; subst.
    addr_entry H5; addr_entry H6; addr_entry H7.
    do 4 eexists. split; [reflexivity|right; eauto].
  - inv H4. do 4 eexists. split; [reflexivity|left; exact Hv4].
Qed.

(** C7 (corrected): the round trip holds for the Patient of
    [3_model_validator.py], and for the Patient of [6_serialization.py]
    when the address is given as a dict or as an Address instance holding
    str city, state and pin (an instance is stored unchecked).  For the
    Patient of [4_computed_fields.py], the dump raises the
    [ZeroDivisionError] of [bmi] when the stored height is 0, and the round
    trip holds for any other height.  Floats are finite here (see the
    section on floats). *)
Theorem dump_roundtrip_patients :
  (forall raw r : record, validate Serialization.Patient raw = Valid r ->
     (forall d, lookup "address" raw = Some (PModel d) ->
        exists c st p, d = [("city", PStr c); ("state", PStr st); ("pin", PStr p)]) ->
     exists d, model_dump Serialization.Patient r None None = Ok d /\
               validate Serialization.Patient d = Valid r) /\
  (forall raw r : record, validate ModelValidator.Patient raw = Valid r ->
     exists d, model_dump ModelValidator.Patient r None None = Ok d /\
               validate ModelValidator.Patient d = Valid r) /\
  (forall raw r : record, validate ComputedFields.Patient raw = Valid r ->
     exists h, lookup "height" r = Some (PFloat h) /\
       ((h == 0)%Q -> model_dump ComputedFields.Patient r None None = Raise ZeroDivisionError) /\
       (~ (h == 0)%Q -> exists d, model_dump ComputedFields.Patient r None None = Ok d /\
                                  validate ComputedFields.Patient d = Valid r)).
Proof.
  split; [|split].
  - intros raw r Hv Hi.
    destruct (serialization_valid_shape raw r Hv) as [n [g [a [d [-> Hd]]]]].
    assert (Hs : exists c st p, d = [("city", PStr c); ("state", PStr st); ("pin", PStr p)])
      by (destruct Hd as [Hd|Hd]; [exact (Hi d Hd)|exact Hd]).
    destruct Hs as [c [st [p ->]]].
    eexists. split; reflexivity.
  - intros raw r Hv. eexists. split; [reflexivity|].
    eapply validate_dump_roundtrip; [rt_fields|distinct_names| |exact Hv|reflexivity].
    apply emergency_returns_model.
  - intros raw r Hv.
    pose proof (validate_no_model_hook ComputedFields.Patient raw r eq_refl Hv) as E.
    destruct (validated_field_value _ _ _ (plain "weight" TFloat) E) as [ww [Hlw Hww]];
      [distinct_names|cbn; tauto|].
    destruct (validated_field_value _ _ _ (plain "height" TFloat) E) as [wh [Hlh Hwh]];
      [distinct_names|cbn; tauto|].
    destruct (float_plain_value _ _ _ Hww) as [w ->].
    destruct (float_plain_value _ _ _ Hwh) as [h ->].
    cbn [fname plain] in Hlw, Hlh.
    assert (Hmd : model_dump ComputedFields.Patient r None None =
              (v <- ComputedFields.bmi r ;;
               Ok (app (dump_fields None None r) [("bmi", dump_val None None v)]))).
    { unfold model_dump, dump_computed. cbn -[ComputedFields.bmi dump_fields].
      destruct (ComputedFields.bmi r); reflexivity. }
    rewrite (bmi_value r w h Hlw Hlh) in Hmd.
    exists h. split; [exact Hlh|].
    destruct (Qeq_bool h 0) eqn:Z; cbn [pybind] in Hmd.
    + apply Qeq_bool_eq in Z. split; [intros _; exact Hmd|intros N; contradiction].
    + split; [intros H0; apply Qeq_bool_iff in H0; congruence|intros _].
      eexists. split; [exact Hmd|].
      apply (validate_dump_roundtrip ComputedFields.Patient raw r);
        [rt_fields|distinct_names| |exact Hv|exact Hmd].
      intros r0 r1 H; inv H; reflexivity.
Qed.

Lemma dump_roundtrip_patients_witness :
  (exists r, validate Serialization.Patient Serialization.patient_dict = Valid r /\
     exists d, model_dump Serialization.Patient r None None = Ok d /\
               validate Serialization.Patient d = Valid r) /\
  (exists r, validate ModelValidator.Patient Samples.senior_emergency = Valid r /\
     exists d, model_dump ModelValidator.Patient r None None = Ok d /\
               validate ModelValidator.Patient d = Valid r) /\
  (exists r, validate ComputedFields.Patient (Samples.patient_height (7 # 4)) = Valid r /\
     exists h, lookup "height" r = Some (PFloat h) /\
       ((h == 0)%Q -> model_dump ComputedFields.Patient r None None = Raise ZeroDivisionError) /\
       (~ (h == 0)%Q -> exists d, model_dump ComputedFields.Patient r None None = Ok d /\
                                  validate ComputedFields.Patient d = Valid r)).
Proof.
  split; [|split]; eexists; (split; [vm_compute; reflexivity|]).
  - apply (proj1 dump_roundtrip_patients Serialization.patient_dict).
    + vm_compute; reflexivity.
    + intros d H. cbn in H. inv H. do 3 eexists. reflexivity.
  - apply (proj1 (proj2 dump_roundtrip_patients) Samples.senior_emergency).
    vm_compute; reflexivity.
  - apply (proj2 (proj2 dump_roundtrip_patients) (Samples.patient_height (7 # 4))).
    vm_compute; reflexivity.
Defined.

(** C7, counterexample: a record the 4_computed_fields Patient accepts
    (height 0) cannot be serialized: [model_dump] raises.  And the Patient
    of [6_serialization.py] keeps an Address instance unchecked: an
    instance whose [pin] was reassigned the int 1234 is accepted, and its
    dump, validated again, fails with a type error at [address.pin]. *)
Lemma dump_fails_height_zero :
  (exists r, validate ComputedFields.Patient (Samples.patient_height 0) = Valid r /\
   model_dump ComputedFields.Patient r None None = Raise ZeroDivisionError) /\
  (exists r d,
   validate Serialization.Patient
     [("name", PStr "Arshnoor"); ("gender", PStr "male"); ("age", PInt 26);
      ("address", PModel [("city", PStr "gurgaon"); ("state", PStr "Punjab");
                          ("pin", PInt 1234)])] = Valid r /\
   model_dump Serialization.Patient r None None = Ok d /\
   validate Serialization.Patient d = Invalid [([LKey "address"; LKey "pin"], TYPE_MISMATCH)]).
Proof.
  split.
  - eexists. split; [vm_compute; reflexivity|]. vm_compute. reflexivity.
  - eexists. eexists. split; [vm_compute; reflexivity|].
    split; [vm_compute; reflexivity|]. vm_compute. reflexivity.
Qed.

(** The two other Patients do not round-trip either: in
    [3_field_validator.py] the stored [email] is [None] (see C4), which
    [EmailStr] rejects on re-validation; in [2_Pydantic.py] an omitted
    [married] keeps its default [None], which [bool] rejects. *)
Lemma roundtrip_email_none :
  exists r d, validate FieldValidator.Patient Samples.patient_base = Valid r /\
  model_dump FieldValidator.Patient r None None = Ok d /\
  validate FieldValidator.Patient d = Invalid [([LKey "email"], TYPE_MISMATCH)].
Proof.
  do 2 eexists. split; [vm_compute; reflexivity|].
  split; [vm_compute; reflexivity|]. vm_compute. reflexivity.
Qed.

Lemma roundtrip_married_default :
  exists r d,
  validate Pydantic2.Patient
    [("name", PStr "Arshnoor"); ("email", PStr "arsh@gmail.com");
     ("linkedin_url", PStr "https://www.linkedin.com/in/arshnoor"); ("age", PInt 24);
     ("weight", PFloat 70); ("contact_details", PDict [])] = Valid r /\
  model_dump Pydantic2.Patient r None None = Ok d /\
  validate Pydantic2.Patient d = Invalid [([LKey "married"], TYPE_MISMATCH)].
Proof.
  do 2 eexists. split; [vm_compute; reflexivity|].
  split; [vm_compute; reflexivity|]. vm_compute. reflexivity.
Qed.

(** * Further properties of the scripts *)

Lemma Qle_bool_inject_Z (a b : Z) : Qle_bool (inject_Z a) (inject_Z b) = (a <=? b)%Z.
Proof. unfold Qle_bool; cbn. rewrite !Z.mul_1_r. reflexivity. Qed.

(** The errors of a field are among those of the pass, as long as no field
    of this input lets an exception escape. *)
Lemma validate_fields_err_at (fs : list field) (raw : record) (f : field) (es : list verr) :
  Forall (fun g => forall e, validate_field g (lookup (fname g) raw) <> FExc e) fs ->
  In f fs -> validate_field f (lookup (fname f) raw) = FErr es ->
  exists es', validate_fields fs raw = FsErr es' /\ incl es es'.
Proof.
  induction 1 as [|g fs Hg Hfs IH]; intros Hin Hf; [destruct Hin|].
  assert (Hno : forall e, validate_fields fs raw <> FsExc e).
  { clear -Hfs. induction Hfs as [|g' fs' Hg' _ IH']; intros e; cbn; [discriminate|].
    destruct (validate_field g' (lookup (fname g') raw)) eqn:E.
    - destruct (validate_fields fs' raw) eqn:Er; try discriminate. exfalso; exact (IH' _ eq_refl).
    - destruct (validate_fields fs' raw) eqn:Er; try discriminate. exfalso; exact (IH' _ eq_refl).
    - exfalso; exact (Hg' _ eq_refl). }
  simpl. destruct Hin as [<-|Hin].
  - rewrite Hf. destruct (validate_fields fs raw) eqn:Er.
    + eexists; split; [reflexivity|apply incl_refl].
    + eexists; split; [reflexivity|apply incl_appl, incl_refl].
    + exfalso; exact (Hno _ eq_refl).
  - destruct (IH Hin Hf) as [es' [He Hi]]. rewrite He.
    destruct (validate_field g (lookup (fname g) raw)) eqn:Eg.
    + eexists; split; [reflexivity|exact Hi].
    + eexists; split; [reflexivity|apply incl_appr, Hi].
    + exfalso; exact (Hg _ eq_refl).
Qed.

(** ** [1_Pydantic_why.py] *)

(** The last [update_patient_data1] behaves as [insert_patient_data2] except
    that a negative int age with a str name raises [ValueError];
    [insert_patient_data2] raises [TypeError] unless the name is a str and
    the age an int (a bool or a numeric string is not), and otherwise prints
    what the unchecked [insert_patient_data1] prints. *)
Theorem update_patient_data1_behaviour (name age : pyval) :
  PydanticWhy.update_patient_data1 name age =
    match name, age with
    | PStr _, PInt z =>
        if (z <? 0)%Z then Raise ValueError else PydanticWhy.insert_patient_data2 name age
    | _, _ => PydanticWhy.insert_patient_data2 name age
    end /\
  PydanticWhy.insert_patient_data2 name age =
    if PydanticWhy.type_is_str name && PydanticWhy.type_is_int age
    then PydanticWhy.insert_patient_data1 name age else Raise TypeError.
Proof.
  split; [|reflexivity].
  destruct name; try reflexivity; destruct age; try reflexivity.
  unfold PydanticWhy.update_patient_data1, PydanticWhy.insert_patient_data2, py_lt.
  cbn [PydanticWhy.type_is_str PydanticWhy.type_is_int andb py_num pybind].
  change 0%Q with (inject_Z 0). rewrite Qle_bool_inject_Z.
  destruct (z <? 0)%Z eqn:E.
  - apply Z.ltb_lt in E. replace (0 <=? z)%Z with false by (symmetry; apply Z.leb_gt; lia).
    reflexivity.
  - apply Z.ltb_ge in E. replace (0 <=? z)%Z with true by (symmetry; apply Z.leb_le; lia).
    reflexivity.
Qed.

(** ** [2_Pydantic.py] *)

(** [linkedin_url] has no default: an input without it, such as the
    script's own [patient_info], is rejected with a missing-field line, so
    building [patient1] from it raises [ValidationError]. *)
Theorem pydantic2_linkedin_required (raw : record) :
  lookup "linkedin_url" raw = None ->
  exists es, validate Pydantic2.Patient raw = Invalid es /\
             In ([LKey "linkedin_url"], MISSING_FIELD) es.
Proof.
  intros Hl.
  destruct (validate_fields_err (sfields Pydantic2.Patient) raw (plain "linkedin_url" TUrl)
              [([LKey "linkedin_url"], MISSING_FIELD)]) as [es [He Hi]].
  - all_hook_free.
  - cbn; tauto.
  - cbn [fname plain]. rewrite Hl. reflexivity.
  - exists es. unfold validate. rewrite He. split; [reflexivity|]. apply Hi; left; reflexivity.
Qed.

Lemma pydantic2_linkedin_required_witness :
  lookup "linkedin_url" Pydantic2.patient_info = None /\
  exists es, validate Pydantic2.Patient Pydantic2.patient_info = Invalid es /\
             In ([LKey "linkedin_url"], MISSING_FIELD) es.
Proof.
  split; [reflexivity|]. apply pydantic2_linkedin_required. reflexivity.
Defined.

(** Every record the Patient of [2_Pydantic.py] builds has a str [name] of
    at most 50 characters (code points), an int [age] with [0 < age < 120] and a float
    [weight] greater than 0. *)
Theorem pydantic2_record_constraints (raw r : record) :
  validate Pydantic2.Patient raw = Valid r ->
  (exists s, lookup "name" r = Some (PStr s) /\ (py_len s <= 50)%nat) /\
  (exists a, lookup "age" r = Some (PInt a) /\ (0 < a < 120)%Z) /\
  (exists q, lookup "weight" r = Some (PFloat q) /\ (0 < q)%Q).
Proof.
  intros Hv. pose proof (validate_no_model_hook Pydantic2.Patient raw r eq_refl Hv) as E.
  split; [|split].
  - destruct (validated_field_value _ _ _
                (mkField "name" TStr false None None (Some 50%nat) None [] []) E)
      as [w [Hl Hw]]; [distinct_names|cbn; tauto|].
    destruct (hook_free_value _ _ _ Hw eq_refl eq_refl) as [[_ Hd]|[v [_ [Hc Hk]]]];
      [discriminate|].
    cbn in Hc. destruct v; try discriminate. inv Hc.
    exists s. split; [exact Hl|].
    unfold check_constraints, check_gt, check_lt, check_max_length in Hk. cbn [num_of fgt flt fmax_length] in Hk.
    destruct (50 <? py_len s)%nat eqn:L; [discriminate|].
    apply Nat.ltb_ge in L. exact L.
  - destruct (validated_field_value _ _ _
                (mkField "age" TInt false (Some 0%Q) (Some 120%Q) None None [] []) E)
      as [w [Hl Hw]]; [distinct_names|cbn; tauto|].
    destruct (hook_free_value _ _ _ Hw eq_refl eq_refl) as [[_ Hd]|[v [_ [Hc Hk]]]];
      [discriminate|].
    destruct (coerce_int_shape _ _ _ Hc) as [a ->].
    exists a. split; [exact Hl|].
    unfold check_constraints, check_gt, check_lt, check_max_length in Hk.
    cbn [num_of fgt flt fmax_length] in Hk.
    change 0%Q with (inject_Z 0) in Hk. change 120%Q with (inject_Z 120) in Hk.
    rewrite !Qle_bool_inject_Z in Hk.
    destruct (a <=? 0)%Z eqn:A1; [discriminate|].
    destruct (120 <=? a)%Z eqn:A2; [discriminate|].
    apply Z.leb_gt in A1, A2. lia.
  - destruct (validated_field_value _ _ _ Pydantic2.weight_field E)
      as [w [Hl Hw]]; [distinct_names|cbn; tauto|].
    destruct (hook_free_value _ _ _ Hw eq_refl eq_refl) as [[_ Hd]|[v [_ [Hc Hk]]]];
      [discriminate|].
    destruct (coerce_float_shape _ _ _ Hc) as [q ->].
    exists q. split; [exact Hl|].
    unfold check_constraints, check_gt, check_lt, check_max_length in Hk.
    cbn [num_of fgt flt fmax_length Pydantic2.weight_field] in Hk.
    destruct (Qle_bool q 0) eqn:Q; [discriminate|].
    apply Qnot_le_lt. intros Hq. apply Qle_bool_iff in Hq. congruence.
Qed.

Lemma pydantic2_record_constraints_witness :
  exists r, validate Pydantic2.Patient Samples.patient_info_url = Valid r /\
  (exists s, lookup "name" r = Some (PStr s) /\ (py_len s <= 50)%nat) /\
  (exists a, lookup "age" r = Some (PInt a) /\ (0 < a < 120)%Z) /\
  (exists q, lookup "weight" r = Some (PFloat q) /\ (0 < q)%Q).
Proof.
  eexists. split; [vm_compute; reflexivity|].
  apply (pydantic2_record_constraints Samples.patient_info_url). vm_compute. reflexivity.
Defined.

(** The defaults of [married] and [allergies] are [None] and are not
    validated: an input that omits them gives a record storing [None]
    there, although [married] is declared [bool]. *)
Theorem pydantic2_omitted_defaults (raw r : record) :
  validate Pydantic2.Patient raw = Valid r ->
  (lookup "married" raw = None -> lookup "married" r = Some PNone) /\
  (lookup "allergies" raw = None -> lookup "allergies" r = Some PNone).
Proof.
  intros Hv. pose proof (validate_no_model_hook Pydantic2.Patient raw r eq_refl Hv) as E.
  split; intros Hm.
  - destruct (validated_field_value _ _ _ Pydantic2.married_field E)
      as [w [Hl Hw]]; [distinct_names|cbn; tauto|].
    cbn [fname Pydantic2.married_field] in *. rewrite Hm in Hw. inv Hw. exact Hl.
  - destruct (validated_field_value _ _ _
                (mkField "allergies" (TOpt (TList TStr)) false None None None (Some PNone) [] [])
                E) as [w [Hl Hw]]; [distinct_names|cbn; tauto|].
    cbn [fname] in *. rewrite Hm in Hw. inv Hw. exact Hl.
Qed.

Lemma pydantic2_omitted_defaults_witness :
  exists r, validate Pydantic2.Patient
    [("name", PStr "Arshnoor"); ("email", PStr "arsh@gmail.com");
     ("linkedin_url", PStr "https://www.linkedin.com/in/arshnoor"); ("age", PInt 24);
     ("weight", PFloat 70); ("contact_details", PDict [])] = Valid r /\
  lookup "married" r = Some PNone /\ lookup "allergies" r = Some PNone.
Proof.
  eexists. split; [vm_compute; reflexivity|].
  destruct (pydantic2_omitted_defaults
    [("name", PStr "Arshnoor"); ("email", PStr "arsh@gmail.com");
     ("linkedin_url", PStr "https://www.linkedin.com/in/arshnoor"); ("age", PInt 24);
     ("weight", PFloat 70); ("contact_details", PDict [])] _ (ltac:(vm_compute; reflexivity)))
    as [H1 H2].
  split; [apply H1|apply H2]; reflexivity.
Defined.

(** ** [3_field_validator.py] *)

Lemma name_field_value (ov : option pyval) (w : pyval) :
  validate_field FieldValidator.name_field ov = FOk w ->
  exists s, ov = Some (PStr s) /\ w = PStr (str_upper s).
Proof.
  intros H. destruct ov as [v|]; [|discriminate].
  destruct v; cbn in H; try discriminate. inv H. eauto.
Qed.


Lemma validate_age_ok (v v1 : pyval) :
  FieldValidator.validate_age v = Ok v1 ->
  v1 = v /\ exists q, py_num v = Ok q /\ (0 < q)%Q /\ (q < 100)%Q.
Proof.
  unfold FieldValidator.validate_age, py_lt.
  destruct (py_num v) as [q|] eqn:N; cbn [pybind py_num]; [|discriminate].
  destruct (Qle_bool q (inject_Z 0)) eqn:A; cbn [negb]; [discriminate|].
  destruct (Qle_bool (inject_Z 100) q) eqn:B; cbn [negb pybind]; [discriminate|].
  intros H; inv H. split; [reflexivity|]. exists q. split; [reflexivity|].
  change (inject_Z 0) with 0%Q in A. change (inject_Z 100) with 100%Q in B.
  split; apply Qnot_le_lt; intros Hq; apply Qle_bool_iff in Hq; congruence.
Qed.

Lemma validate_age_raise (v : pyval) (q : Q) :
  py_num v = Ok q -> (q <= 0 \/ 100 <= q)%Q ->
  FieldValidator.validate_age v = Raise ValueError.
Proof.
  intros N Hq. unfold FieldValidator.validate_age, py_lt. rewrite N.
  cbn [pybind py_num].
  destruct (Qle_bool q (inject_Z 0)) eqn:A; cbn [negb]; [reflexivity|].
  destruct (Qle_bool (inject_Z 100) q) eqn:B; cbn [negb pybind]; [reflexivity|].
  change (inject_Z 0) with 0%Q in A. change (inject_Z 100) with 100%Q in B.
  exfalso. destruct Hq as [Hq|Hq]; apply Qle_bool_iff in Hq; congruence.
Qed.

(** Lax int coercion keeps the numeric value. *)
Lemma coerce_int_num (v w : pyval) (q : Q) :
  coerce_int false v = VOk w -> py_num v = Ok q -> exists z, w = PInt z /\ (q == inject_Z z)%Q.
Proof.
  intros H N. destruct v; cbn in H, N; unfold mismatch in H; try discriminate; inv N.
  - inv H. exists (if b then 1 else 0)%Z. split; [reflexivity|]. destruct b; reflexivity.
  - inv H. exists z. split; reflexivity.
  - destruct (Qnum q mod Z.pos (Qden q) =? 0)%Z eqn:M; [|discriminate]. inv H.
    eexists. split; [reflexivity|].
    apply Z.eqb_eq in M. apply Z.div_exact in M; [|lia].
    unfold Qeq; cbn. rewrite Z.mul_1_r. lia.
Qed.

Lemma age_field_value (ov : option pyval) (w : pyval) :
  validate_field FieldValidator.age_field ov = FOk w ->
  exists z, w = PInt z /\ (0 < z < 100)%Z.
Proof.
  intros H. destruct ov as [v|]; [|discriminate].
  unfold validate_field in H. cbn [fbefore fafter FieldValidator.age_field run_hooks] in H.
  destruct (FieldValidator.validate_age v) as [v1|e] eqn:Va; cbn [pybind] in H;
    [|destruct e; discriminate].
  apply validate_age_ok in Va as [-> [q [N [H0 H100]]]].
  cbn [fstrict ftyp FieldValidator.age_field coerce] in H.
  destruct (coerce_int false v) as [w'|] eqn:C; [|discriminate].
  unfold check_constraints, check_gt, check_lt, check_max_length in H.
  cbn [fgt flt fmax_length FieldValidator.age_field] in H.
  replace (match num_of w' with Some _ | None => None end) with (@None vkind) in H
    by (destruct (num_of w'); reflexivity).
  replace (match w' with PStr _ | _ => None end) with (@None vkind) in H
    by (destruct w'; reflexivity).
  cbn [run_hooks] in H. inv H.
  destruct (coerce_int_num _ _ _ C N) as [z [-> Hz]].
  exists z. split; [reflexivity|].
  rewrite Hz in H0, H100. unfold Qlt in H0, H100. cbn in H0, H100. lia.
Qed.

(** The stored [name] is the upper-cased input name ([transform_name]),
    for a name made of ASCII characters ([str.upper] maps other letters
    by Unicode rules, which [str_upper] does not model). *)
Theorem field_validator_name_upper (raw r : record) (s : string) :
  validate FieldValidator.Patient raw = Valid r ->
  lookup "name" raw = Some (PStr s) -> is_ascii s = true ->
  lookup "name" r = Some (PStr (str_upper s)).
Proof.
  intros Hv Hs _. pose proof (validate_no_model_hook FieldValidator.Patient raw r eq_refl Hv) as E.
  destruct (validated_field_value _ _ _ FieldValidator.name_field E)
    as [w [Hl Hw]]; [distinct_names|cbn; tauto|].
  apply name_field_value in Hw as [s' [Hs' ->]].
  cbn [fname FieldValidator.name_field] in Hs'. rewrite Hs in Hs'. inv Hs'. exact Hl.
Qed.

Lemma field_validator_name_upper_witness :
  exists r, validate FieldValidator.Patient Samples.patient_base = Valid r /\
  lookup "name" r = Some (PStr (str_upper "Arshnoor")).
Proof.
  eexists. split; [vm_compute; reflexivity|].
  apply (field_validator_name_upper Samples.patient_base _ "Arshnoor");
    [vm_compute; reflexivity|vm_compute; reflexivity|vm_compute; reflexivity].
Defined.



(** Every record the Patient of [3_field_validator.py] builds stores an int
    [age] with [0 < age < 100]: [validate_age] checks the raw number and
    lax int coercion keeps its value. *)
Theorem field_validator_age_range (raw r : record) :
  validate FieldValidator.Patient raw = Valid r ->
  exists z, lookup "age" r = Some (PInt z) /\ (0 < z < 100)%Z.
Proof.
  intros Hv. pose proof (validate_no_model_hook FieldValidator.Patient raw r eq_refl Hv) as E.
  destruct (validated_field_value _ _ _ FieldValidator.age_field E)
    as [w [Hl Hw]]; [distinct_names|cbn; tauto|].
  apply age_field_value in Hw as [z [-> Hz]]. eauto.
Qed.

Lemma field_validator_age_range_witness :
  exists r, validate FieldValidator.Patient Samples.patient_base = Valid r /\
  exists z, lookup "age" r = Some (PInt z) /\ (0 < z < 100)%Z.
Proof.
  eexists. split; [vm_compute; reflexivity|].
  apply (field_validator_age_range Samples.patient_base). vm_compute. reflexivity.
Defined.

(** A numeric raw age (int, float or bool) outside [0 < age < 100] is
    reported as a validator error on [age] inside the [ValidationError];
    the pass does not stop with an exception. *)
Theorem field_validator_age_out_of_range (raw : record) (v : pyval) (q : Q) :
  lookup "age" raw = Some v -> py_num v = Ok q -> (q <= 0 \/ 100 <= q)%Q ->
  exists es, validate FieldValidator.Patient raw = Invalid es /\
             In ([LKey "age"], HOOK_VIOLATION) es.
Proof.
  intros Hl N Hq.
  assert (Ha : validate_field FieldValidator.age_field (lookup "age" raw)
               = FErr [([LKey "age"], HOOK_VIOLATION)]).
  { rewrite Hl. unfold validate_field. cbn [fbefore FieldValidator.age_field run_hooks].
    rewrite (validate_age_raise v q N Hq). reflexivity. }
  destruct (validate_fields_err_at (sfields FieldValidator.Patient) raw
              FieldValidator.age_field [([LKey "age"], HOOK_VIOLATION)]) as [es [He Hi]].
  - cbn [sfields FieldValidator.Patient].
    constructor; [intros e; apply name_field_no_escape|].
    constructor; [intros e; apply email_field_no_escape|].
    constructor; [intros e; cbn [fname FieldValidator.age_field]; rewrite Ha; discriminate|].
    repeat constructor; intros e; apply hook_free_no_escape; reflexivity.
  - cbn; tauto.
  - exact Ha.
  - exists es. unfold validate. rewrite He. split; [reflexivity|]. apply Hi; left; reflexivity.
Qed.

Lemma field_validator_age_out_of_range_witness :
  exists es, validate FieldValidator.Patient (("age", PInt 150) :: Samples.patient_base)
             = Invalid es /\ In ([LKey "age"], HOOK_VIOLATION) es.
Proof.
  apply (field_validator_age_out_of_range _ (PInt 150) (inject_Z 150));
    [reflexivity|reflexivity|right; unfold Qle; cbn; lia].
Defined.

(** ** [3_model_validator.py] *)

(** Once the fields are valid, [validate_emergency_contact] rejects the
    instance exactly when [age > 60] and [contact_details] has no key
    'emergency'; otherwise the instance is returned unchanged. *)
Theorem emergency_contact_exact (raw r : record) :
  validate_fields (sfields ModelValidator.Patient) raw = FsOk r ->
  exists a cd,
    lookup "age" r = Some (PInt a) /\ lookup "contact_details" r = Some (PDict cd) /\
    validate ModelValidator.Patient raw =
      if (60 <? a)%Z && negb (match lookup "emergency" cd with Some _ => true | None => false end)
      then Invalid [([], HOOK_VIOLATION)] else Valid r.
Proof.
  intros E.
  destruct (validated_field_value _ _ _ (plain "age" TInt) E) as [wa [Hla Hwa]];
    [distinct_names|cbn; tauto|].
  destruct (validated_field_value _ _ _ (plain "contact_details" (TDict TStr)) E)
    as [wc [Hlc Hwc]]; [distinct_names|cbn; tauto|].
  apply plain_value in Hwa as [va [_ Ca]]. apply plain_value in Hwc as [vc [_ Cc]].
  destruct (coerce_int_shape _ _ _ Ca) as [a ->].
  assert (Hd : exists cd, wc = PDict cd).
  { destruct vc; cbn in Cc; unfold mismatch in Cc; try discriminate.
    destruct (vmap_assoc _ d); inv Cc. eauto. }
  destruct Hd as [cd ->]. cbn [fname plain] in Hla, Hlc.
  exists a, cd. split; [exact Hla|split; [exact Hlc|]].
  unfold validate. rewrite E.
  cbn [run_mhooks smodel_after ModelValidator.Patient].
  unfold ModelValidator.validate_emergency_contact, getattr, py_lt.
  rewrite Hla. cbn [pybind py_num]. rewrite Qle_bool_inject_Z, Z.ltb_antisym.
  destruct (a <=? 60)%Z; cbn [negb andb pybind]; [reflexivity|].
  rewrite Hlc. cbn [py_contains pybind].
  destruct (lookup "emergency" cd); reflexivity.
Qed.

Lemma emergency_contact_exact_witness :
  exists r, validate_fields (sfields ModelValidator.Patient) Samples.senior_emergency = FsOk r /\
  exists a cd,
    lookup "age" r = Some (PInt a) /\ lookup "contact_details" r = Some (PDict cd) /\
    validate ModelValidator.Patient Samples.senior_emergency =
      if (60 <? a)%Z && negb (match lookup "emergency" cd with Some _ => true | None => false end)
      then Invalid [([], HOOK_VIOLATION)] else Valid r.
Proof.
  eexists. split; [vm_compute; reflexivity|].
  apply (emergency_contact_exact Samples.senior_emergency). vm_compute. reflexivity.
Defined.

(** ** [4_computed_fields.py] *)

(** The dump of a validated Patient evaluates [bmi] only when the filters
    keep it: with [bmi] filtered out it never raises, even for height 0;
    otherwise the only exception it can raise is [ZeroDivisionError], and
    only when the stored height is 0. *)
Theorem computed_dump_failure (raw r : record) (inc exc : option filt) :
  validate ComputedFields.Patient raw = Valid r ->
  (keep inc exc "bmi" = false ->
     model_dump ComputedFields.Patient r inc exc = Ok (dump_fields inc exc r)) /\
  (forall e, model_dump ComputedFields.Patient r inc exc = Raise e ->
     e = ZeroDivisionError /\ keep inc exc "bmi" = true /\
     exists h, lookup "height" r = Some (PFloat h) /\ (h == 0)%Q).
Proof.
  intros Hv.
  pose proof (validate_no_model_hook ComputedFields.Patient raw r eq_refl Hv) as E.
  destruct (validated_field_value _ _ _ (plain "weight" TFloat) E) as [ww [Hlw Hww]];
    [distinct_names|cbn; tauto|].
  destruct (validated_field_value _ _ _ (plain "height" TFloat) E) as [wh [Hlh Hwh]];
    [distinct_names|cbn; tauto|].
  destruct (float_plain_value _ _ _ Hww) as [w ->].
  destruct (float_plain_value _ _ _ Hwh) as [h ->].
  cbn [fname plain] in Hlw, Hlh.
  assert (Hmd : model_dump ComputedFields.Patient r inc exc =
            if keep inc exc "bmi" then
              (v <- ComputedFields.bmi r ;;
               Ok (app (dump_fields inc exc r)
                       [("bmi", dump_val (sub inc "bmi") (sub exc "bmi") v)]))
            else Ok (dump_fields inc exc r)).
  { unfold model_dump, dump_computed. cbn [scomputed ComputedFields.Patient].
    destruct (keep inc exc "bmi"); cbn [pybind];
      [destruct (ComputedFields.bmi r); reflexivity|rewrite app_nil_r; reflexivity]. }
  split.
  - intros K. rewrite Hmd, K. reflexivity.
  - intros e He. rewrite Hmd in He. destruct (keep inc exc "bmi"); [|discriminate].
    rewrite (bmi_value r w h Hlw Hlh) in He.
    destruct (Qeq_bool h 0) eqn:Z; cbn [pybind] in He; [|discriminate]. inv He.
    split; [reflexivity|split; [reflexivity|]].
    exists h. split; [exact Hlh|apply Qeq_bool_eq; exact Z].
Qed.

Lemma computed_dump_failure_witness :
  exists r, validate ComputedFields.Patient (Samples.patient_height 0) = Valid r /\
  model_dump ComputedFields.Patient r None (Some (names ["bmi"]))
  = Ok (dump_fields None (Some (names ["bmi"])) r).
Proof.
  eexists. split; [vm_compute; reflexivity|].
  refine (proj1 (computed_dump_failure (Samples.patient_height 0) _ None
                   (Some (names ["bmi"])) _) _).
  - vm_compute. reflexivity.
  - reflexivity.
Defined.

(** ** [6_serialization.py] *)

(** [model_dump(include=I)] keeps the entries of the unfiltered dump named
    in [I] and [model_dump(exclude=I)] the others, each in field order;
    nested values are dumped whole. *)
Theorem serialization_include_exclude_split (r : record) (I : list string) :
  model_dump Serialization.Patient r None None = Ok (dump_fields None None r) /\
  model_dump Serialization.Patient r (Some (names I)) None
    = Ok (filter (fun e => mem (fst e) I) (dump_fields None None r)) /\
  model_dump Serialization.Patient r None (Some (names I))
    = Ok (filter (fun e => negb (mem (fst e) I)) (dump_fields None None r)).
Proof.
  unfold model_dump. cbn [scomputed Serialization.Patient dump_computed pybind].
  rewrite !app_nil_r. split; [reflexivity|split; f_equal]; unfold dump_fields.
  - induction r as [|[k x] r IH]; cbn; [reflexivity|].
    unfold keep, included, excluded, sub, names in *. rewrite lookup_names.
    destruct (mem k I); cbn; rewrite IH; reflexivity.
  - induction r as [|[k x] r IH]; cbn; [reflexivity|].
    unfold keep, included, excluded, sub, names in *. rewrite lookup_names.
    destruct (mem k I); cbn; rewrite IH; reflexivity.
Qed.

Lemma dump_exclude_state (d : record) :
  dump_assoc dump_val None (Some (FSub [("state", FAll)])) d =
  dump_assoc dump_val None None (filter (fun e => negb (String.eqb (fst e) "state")) d).
Proof.
  induction d as [|[k x] d IH]; cbn [dump_assoc filter fst]; [reflexivity|].
  unfold keep, included, excluded, sub. cbn [lookup].
  destruct (String.eqb k "state"); cbn [negb andb dump_assoc]; rewrite IH; reflexivity.
Qed.

(** A record the Patient of [6_serialization.py] builds has exactly the
    declared fields in order; its address is the Address instance given,
    kept as it is, or the one built from a dict, with str city, state and
    pin.  [model_dump(exclude={'address': ['state']})] keeps the outer
    fields and drops only the state entries of the address. *)
Theorem serialization_record_shape (raw r : record) :
  validate Serialization.Patient raw = Valid r ->
  exists n g a d,
    r = [("name", PStr n); ("gender", PStr g); ("age", PInt a); ("address", PModel d)] /\
    (lookup "address" raw = Some (PModel d) \/
     exists c st p, d = [("city", PStr c); ("state", PStr st); ("pin", PStr p)]) /\
    model_dump Serialization.Patient r None (Some (FSub [("address", names ["state"])]))
    = Ok [("name", PStr n); ("gender", PStr g); ("age", PInt a);
          ("address", PDict (dump_fields None None
                               (filter (fun e => negb (String.eqb (fst e) "state")) d)))].
Proof.
  intros Hv. destruct (serialization_valid_shape raw r Hv) as [n [g [a [d [-> Hd]]]]].
  exists n, g, a, d. split; [reflexivity|split; [exact Hd|]].
  unfold model_dump, dump_fields. cbn [scomputed Serialization.Patient dump_computed pybind].
  rewrite app_nil_r. cbn [dump_assoc]. unfold keep, included, excluded, sub, names.
  cbn [lookup map String.eqb Ascii.eqb Bool.eqb negb andb dump_val].
  rewrite dump_exclude_state. reflexivity.
Qed.

Lemma serialization_record_shape_witness :
  exists r, validate Serialization.Patient Serialization.patient_dict = Valid r /\
  exists n g a d,
    r = [("name", PStr n); ("gender", PStr g); ("age", PInt a); ("address", PModel d)] /\
    (lookup "address" Serialization.patient_dict = Some (PModel d) \/
     exists c st p, d = [("city", PStr c); ("state", PStr st); ("pin", PStr p)]) /\
    model_dump Serialization.Patient r None (Some (FSub [("address", names ["state"])]))
    = Ok [("name", PStr n); ("gender", PStr g); ("age", PInt a);
          ("address", PDict (dump_fields None None
                               (filter (fun e => negb (String.eqb (fst e) "state")) d)))].
Proof.
  eexists. split; [vm_compute; reflexivity|].
  apply (serialization_record_shape Serialization.patient_dict). vm_compute. reflexivity.
Defined.
